(** * Bookstore Manager (src/App.tsx): a shallow embedding and its properties

    The component keeps six pieces of React state (books, isFormOpen,
    editingBook, formData, loading, error) and four handlers
    (fetchBooks, handleSubmit, handleDelete, handleEdit) plus resetForm.
    The handlers talk to the outside through [fetch], [confirm] and
    [console.error].

    Layout of the development:
    - [JS]:   the JavaScript built-ins the handlers call
              (string truthiness, [parseInt], [Number.prototype.toString],
              [JSON.stringify] on the payload object);
    - [Net]:  requests, responses and the outcome of a [fetch];
    - [Eff]:  handler bodies as finite interaction programs, with
              try / catch / finally, and their execution against an
              environment (the user answering [confirm], the server
              answering [fetch]);
    - [App]:  the component itself, line by line;
    - the vocabulary of the specification, and the properties.

    Conventions of the model:
    - a handler is a closure of one render: it reads the state variables
      of that render and writes to the store through the setters;
    - a handler runs to its end before the next event is handled; what
      other events might do while it waits at an await is not modelled;
    - a response body that parses is taken to be a list of books, the
      type the component declares for it. *)

From Stdlib Require Import ZArith String Ascii List Bool Lia.
From Stdlib Require Floats.SpecFloat.
From ExtLib Require Import Structures.Monad Structures.MonadExc.
Import ListNotations.

Local Open Scope string_scope.
Local Open Scope Z_scope.

(* ===================================================================== *)
(** ** JavaScript built-ins *)
(* ===================================================================== *)

Module JS.

(** A character of a [string] stands for one UTF-16 code unit below 256. *)
Definition code (c : ascii) : Z := Z.of_N (N_of_ascii c).

(** *** Number values

    A JavaScript number is an IEEE-754 binary64 value.  The numbers of
    this program are the [id] and [isbn] of a book and the result of
    [parseInt]; the values modelled are NaN, the two infinities and the
    finite values that are integers.  [Num z] is meant for a [z] that
    binary64 holds exactly ([representable] below); [+0] and [-0], which
    [===], [toString] and [JSON.stringify] do not tell apart, are both
    [Num 0]. *)
Inductive number : Type :=
| NaN
| Infinity (negative : bool)
| Num (z : Z).

Definition number_eqb (x y : number) : bool :=
  match x, y with
  | NaN, NaN => true
  | Infinity a, Infinity b => Bool.eqb a b
  | Num a, Num b => a =? b
  | _, _ => false
  end.

(** Number.isInteger *)
Definition isInteger (x : number) : bool :=
  match x with Num _ => true | _ => false end.

(** Round a non-negative integer to 53 significant bits, ties to even. *)
Definition round_to_53 (m : Z) : Z :=
  let e := Z.log2 m - 52 in
  if e <=? 0 then m
  else
    let q := Z.shiftr m e in
    let r := m - Z.shiftl q e in
    let half := Z.shiftl 1 (e - 1) in
    let q' := if r <? half then q
              else if half <? r then q + 1
              else if Z.even q then q else q + 1 in
    Z.shiftl q' e.

(** The number value of a mathematical integer (the conversion the
    language definition applies to the result of parseInt): round to
    nearest, ties to even; a result of magnitude 2^1024 or more is an
    infinity. *)
Definition number_of_Z (z : Z) : number :=
  let r := round_to_53 (Z.abs z) in
  if 2 ^ 1024 <=? r then Infinity (z <? 0) else Num (Z.sgn z * r).

(** [z] is held exactly by a binary64 value. *)
Definition representable (z : Z) : bool := number_eqb (number_of_Z z) (Num z).

(** The same conversion through the standard library's IEEE-754
    specification, used to cross-check [number_of_Z]. *)
Definition number_of_spec_float (f : SpecFloat.spec_float) : number :=
  match f with
  | SpecFloat.S754_zero _ => Num 0
  | SpecFloat.S754_infinity s => Infinity s
  | SpecFloat.S754_nan => NaN
  | SpecFloat.S754_finite s m e =>
      let v := if 0 <=? e then Z.pos m * 2 ^ e else Z.pos m / 2 ^ (- e) in
      Num (if s then - v else v)
  end.

Definition number_of_Z_ieee (z : Z) : number :=
  number_of_spec_float (SpecFloat.binary_normalize 53 1024 z 0 false).

(** *** Strings *)

(** ToBoolean on a string: only the empty string is falsy. *)
Definition truthy (s : string) : bool :=
  match s with EmptyString => false | String _ _ => true end.

(** WhiteSpace and LineTerminator code units (below 256): TAB, LF, VT, FF,
    CR, SP and NBSP. *)
Definition is_white_space (c : ascii) : bool :=
  let n := code c in
  (n =? 9) || (n =? 10) || (n =? 11) || (n =? 12) || (n =? 13)
  || (n =? 32) || (n =? 160).

(** TrimString(string, start) *)
Fixpoint TrimString_start (s : string) : string :=
  match s with
  | EmptyString => EmptyString
  | String c s' => if is_white_space c then TrimString_start s' else s
  end.

(** The value of a character as a digit: 0-9, a-z, A-Z. *)
Definition digit_value (c : ascii) : option Z :=
  let n := code c in
  if (48 <=? n) && (n <=? 57) then Some (n - 48)
  else if (97 <=? n) && (n <=? 122) then Some (n - 87)
  else if (65 <=? n) && (n <=? 90) then Some (n - 55)
  else None.

Definition radix_digit (R : Z) (c : ascii) : option Z :=
  match digit_value c with
  | Some d => if d <? R then Some d else None
  | None => None
  end.

(** The digits of the longest prefix of [s] made of radix-[R] digits. *)
Fixpoint digits_prefix (R : Z) (s : string) : list Z :=
  match s with
  | EmptyString => []
  | String c s' =>
      match radix_digit R c with
      | Some d => d :: digits_prefix R s'
      | None => []
      end
  end.

(** The integer a digit sequence denotes in radix [R]. *)
Definition mathInt (R : Z) (ds : list Z) : Z :=
  fold_left (fun a d => a * R + d) ds 0.

(** The sign a text starts with, and the text after it. *)
Definition read_sign (s : string) : Z * string :=
  match s with
  | String "-" rest => (-1, rest)
  | String "+" rest => (1, rest)
  | _ => (1, s)
  end.

(** With the radix argument absent, a [0x] or [0X] prefix selects radix
    16 and is dropped; otherwise the radix is 10. *)
Definition read_radix (s : string) : Z * string :=
  match s with
  | String "0" (String "x" rest) => (16, rest)
  | String "0" (String "X" rest) => (16, rest)
  | _ => (10, s)
  end.

(** parseInt(string) with the radix argument absent, as the handler calls
    it: leading white space is dropped, a sign is read, the radix is
    chosen, the longest digit prefix is converted, and the result is NaN
    when there is none.  (For more than 20 significant decimal digits the
    language lets an implementation approximate; the exact value is taken
    here.) *)
Definition parseInt (inputString : string) : number :=
  let '(sign, s1) := read_sign (TrimString_start inputString) in
  let '(R, s2) := read_radix s1 in
  match digits_prefix R s2 with
  | [] => NaN
  | ds => number_of_Z (sign * mathInt R ds)
  end.

(** *** Number to string *)

(** A decimal digit, as a value. *)
Definition is_digit (d : Z) : Prop := 0 <= d <= 9.

Definition digit_char (d : Z) : ascii := ascii_of_N (Z.to_N (48 + d)).

Fixpoint string_of_digits (ds : list Z) : string :=
  match ds with
  | [] => EmptyString
  | d :: ds' => String (digit_char d) (string_of_digits ds')
  end.

Fixpoint to_digits_aux (fuel : nat) (n : Z) (acc : list Z) : list Z :=
  match fuel with
  | O => acc
  | S f => if n <? 10 then n :: acc
           else to_digits_aux f (n / 10) (n mod 10 :: acc)
  end.

(** The decimal digits of a non-negative integer, most significant first. *)
Definition to_digits (n : Z) : list Z :=
  to_digits_aux (S (Z.to_nat (Z.log2 n))) n [].

Fixpoint strip_leading_zeros (ds : list Z) : list Z :=
  match ds with
  | 0 :: ds' => strip_leading_zeros ds'
  | _ => ds
  end.

Definition strip_trailing_zeros (ds : list Z) : list Z :=
  rev (strip_leading_zeros (rev ds)).

(** Search for the decimal [s * 10^j] with the fewest significant digits
    whose number value is [x], trying the largest [j] first; of the two
    neighbours of [x] on the grid of multiples of [10^j], the closer one
    is preferred. *)
Fixpoint shortest_aux (fuel : nat) (j : Z) (x : Z) : Z :=
  match fuel with
  | O => x
  | S f =>
      let p := 10 ^ j in
      let lo := (x / p) * p in
      let hi := lo + p in
      let ok_lo := number_eqb (number_of_Z lo) (Num x) in
      let ok_hi := number_eqb (number_of_Z hi) (Num x) in
      if ok_lo && ok_hi then (if x - lo <=? hi - x then lo else hi)
      else if ok_lo then lo
      else if ok_hi then hi
      else shortest_aux f (j - 1) x
  end.

Definition shortest_decimal (x : Z) : Z :=
  let n := Z.of_nat (length (to_digits x)) in
  shortest_aux (Z.to_nat n) (n - 1) x.

(** Number::toString(x, 10) for a positive integral [x]: with [n] the
    number of digits of the shortest decimal and [k] the number of its
    significant digits, the result is the plain digits when [n <= 21] and
    the exponential form otherwise. *)
Definition positive_toString (x : Z) : string :=
  let ds := to_digits (shortest_decimal x) in
  let n := Z.of_nat (length ds) in
  if n <=? 21 then string_of_digits ds
  else
    match strip_trailing_zeros ds with
    | [] => EmptyString
    | [d] => string_of_digits [d] ++ "e+" ++ string_of_digits (to_digits (n - 1))
    | d :: rest =>
        string_of_digits [d] ++ "." ++ string_of_digits rest
        ++ "e+" ++ string_of_digits (to_digits (n - 1))
    end.

(** Number.prototype.toString() and the ToString of a template literal. *)
Definition Number_toString (x : number) : string :=
  match x with
  | NaN => "NaN"
  | Infinity false => "Infinity"
  | Infinity true => "-Infinity"
  | Num z =>
      if z =? 0 then "0"
      else if z <? 0 then "-" ++ positive_toString (- z)
      else positive_toString z
  end.

(** *** JSON.stringify *)

Definition hex_char (d : Z) : ascii :=
  if d <? 10 then ascii_of_N (Z.to_N (48 + d)) else ascii_of_N (Z.to_N (87 + d)).

Definition backslash : ascii := ascii_of_N 92.

Definition escape (c : ascii) : string := String backslash (String c EmptyString).

(** QuoteJSONString, one code unit at a time. *)
Definition quote_char (c : ascii) : string :=
  let n := code c in
  if n =? 8 then escape "b"
  else if n =? 9 then escape "t"
  else if n =? 10 then escape "n"
  else if n =? 12 then escape "f"
  else if n =? 13 then escape "r"
  else if n =? 34 then escape c
  else if n =? 92 then escape c
  else if n <? 32 then
    (escape "u" ++ "00"
     ++ String (hex_char (n / 16)) (String (hex_char (n mod 16)) EmptyString))%string
  else String c EmptyString.

Fixpoint quote_chars (s : string) : string :=
  match s with
  | EmptyString => EmptyString
  | String c s' => quote_char c ++ quote_chars s'
  end.

Definition dquote : string := String (ascii_of_N 34) EmptyString.

Definition QuoteJSONString (s : string) : string :=
  dquote ++ quote_chars s ++ dquote.

(** The values of the properties of the payload object. *)
Inductive value : Type :=
| VString (s : string)
| VNumber (x : number).

(** An object: its own properties in creation order. *)
Definition object : Type := list (string * value).

(** A finite number is written by [toString]; NaN and the infinities are
    written [null]. *)
Definition JSON_number (x : number) : string :=
  match x with
  | Num _ => Number_toString x
  | _ => "null"
  end.

Definition JSON_value (v : value) : string :=
  match v with
  | VString s => QuoteJSONString s
  | VNumber x => JSON_number x
  end.

Fixpoint JSON_members (o : object) : string :=
  match o with
  | [] => EmptyString
  | (k, v) :: rest =>
      (QuoteJSONString k ++ ":" ++ JSON_value v
       ++ match rest with [] => EmptyString | _ => "," ++ JSON_members rest end)%string
  end.

(** JSON.stringify(o), without replacer or indentation. *)
Definition JSON_stringify (o : object) : string :=
  ("{" ++ JSON_members o ++ "}")%string.

End JS.


(* ===================================================================== *)
(** ** Data model (App.tsx, lines 5-16) *)
(* ===================================================================== *)

(** interface Book *)
Module Book.
Record t : Type := mk {
  id : JS.number;
  book_name : string;
  author_name : string;
  isbn : JS.number
}.
End Book.

(** interface BookFormData: the draft, with [isbn] held as text. *)
Module BookFormData.
Record t : Type := mk {
  book_name : string;
  author_name : string;
  isbn : string
}.
End BookFormData.

(* ===================================================================== *)
(** ** The network *)
(* ===================================================================== *)

Module Net.

Inductive Method : Type := GET | POST | PUT | DELETE.

Definition Method_eqb (a b : Method) : bool :=
  match a, b with
  | GET, GET | POST, POST | PUT, PUT | DELETE, DELETE => true
  | _, _ => false
  end.

(** What [fetch(url, init)] sends; [fetch(url)] alone is a GET without
    headers or body. *)
Record Request : Type := {
  url : string;
  method : Method;
  headers : list (string * string);
  body : option string
}.

(** Values thrown and caught. *)
Inductive exn : Type :=
| Error (message : string)
| TypeError (message : string)
| SyntaxError (message : string).

(** A response: its status, and what [response.json()] resolves to, or
    the exception it rejects with when the body is not JSON. *)
Record Response : Type := {
  status : Z;
  json : exn + list Book.t
}.

(** response.ok: the status is in the range 200-299. *)
Definition ok (r : Response) : bool := (200 <=? status r) && (status r <=? 299).

(** The promise [fetch] returns either resolves to a response (whatever
    its status) or rejects (a transport failure). *)
Inductive FetchResult : Type :=
| Rejected (e : exn)
| Resolved (r : Response).

(** A mutation is any request that is not a GET. *)
Definition is_mutation (r : Request) : bool := negb (Method_eqb (method r) GET).

End Net.

Import Net.

(* ===================================================================== *)
(** ** Effects *)
(* ===================================================================== *)

(** useState: the store of the component. *)
Record State : Type := {
  books : list Book.t;
  isFormOpen : bool;
  editingBook : option Book.t;
  formData : BookFormData.t;
  loading : bool;
  error : string
}.

Module Eff.

(** Calls that return nothing of interest: the six state setters,
    [e.preventDefault()] and [console.error(err)]. *)
Inductive action : Type :=
| SetBooks (v : list Book.t)
| SetIsFormOpen (v : bool)
| SetEditingBook (v : option Book.t)
| SetFormData (v : BookFormData.t)
| SetLoading (v : bool)
| SetError (v : string)
| PreventDefault
| ConsoleError (e : exn).

(** A handler body: it ends normally or by a throw, performs an action,
    asks the user to confirm, or awaits a fetch; the continuation of a
    [Confirm] or an [AwaitFetch] runs once the answer is there. *)
Inductive Prog (A : Type) : Type :=
| Ret (a : A)
| Throw (e : exn)
| Act (a : action) (k : Prog A)
| Confirm (message : string) (k : bool -> Prog A)
| AwaitFetch (req : Request) (k : FetchResult -> Prog A).

Arguments Ret {A} a.
Arguments Throw {A} e.
Arguments Act {A} a k.
Arguments Confirm {A} message k.
Arguments AwaitFetch {A} req k.

Fixpoint bind {A B} (p : Prog A) (f : A -> Prog B) : Prog B :=
  match p with
  | Ret a => f a
  | Throw e => Throw e
  | Act a k => Act a (bind k f)
  | Confirm m k => Confirm m (fun b => bind (k b) f)
  | AwaitFetch r k => AwaitFetch r (fun x => bind (k x) f)
  end.

(** try { p } catch (e) { h e } *)
Fixpoint try_catch {A} (p : Prog A) (h : exn -> Prog A) : Prog A :=
  match p with
  | Ret a => Ret a
  | Throw e => h e
  | Act a k => Act a (try_catch k h)
  | Confirm m k => Confirm m (fun b => try_catch (k b) h)
  | AwaitFetch r k => AwaitFetch r (fun x => try_catch (k x) h)
  end.

(** p finally { f }: [f] runs however [p] ends, and the completion of [p]
    stands unless [f] itself throws. *)
Fixpoint finally {A} (p : Prog A) (f : Prog unit) : Prog A :=
  match p with
  | Ret a => bind f (fun _ => Ret a)
  | Throw e => bind f (fun _ => Throw e)
  | Act a k => Act a (finally k f)
  | Confirm m k => Confirm m (fun b => finally (k b) f)
  | AwaitFetch r k => AwaitFetch r (fun x => finally (k x) f)
  end.

#[global] Instance Monad_Prog : Monad Prog :=
  {| ret := @Ret; Monad.bind := @bind |}.

#[global] Instance Exc_Prog : MonadExc exn Prog :=
  {| raise := @Throw; catch := @try_catch |}.

Definition try_catch_finally {A} (p : Prog A) (h : exn -> Prog A) (f : Prog unit)
  : Prog A :=
  finally (catch p h) f.

Definition perform (a : action) : Prog unit := Act a (Ret tt).

(** await fetch(...): a rejected promise is thrown at the await. *)
Definition await_fetch (req : Request) : Prog Response :=
  AwaitFetch req (fun res =>
    match res with
    | Rejected e => Throw e
    | Resolved r => Ret r
    end).

(** await response.json() *)
Definition await_json (r : Response) : Prog (list Book.t) :=
  match json r with
  | inl e => Throw e
  | inr data => Ret data
  end.

(** The effect of an action on the store. *)
Definition apply (a : action) (s : State) : State :=
  match a with
  | SetBooks v =>
      {| books := v; isFormOpen := isFormOpen s; editingBook := editingBook s;
         formData := formData s; loading := loading s; error := error s |}
  | SetIsFormOpen v =>
      {| books := books s; isFormOpen := v; editingBook := editingBook s;
         formData := formData s; loading := loading s; error := error s |}
  | SetEditingBook v =>
      {| books := books s; isFormOpen := isFormOpen s; editingBook := v;
         formData := formData s; loading := loading s; error := error s |}
  | SetFormData v =>
      {| books := books s; isFormOpen := isFormOpen s; editingBook := editingBook s;
         formData := v; loading := loading s; error := error s |}
  | SetLoading v =>
      {| books := books s; isFormOpen := isFormOpen s; editingBook := editingBook s;
         formData := formData s; loading := v; error := error s |}
  | SetError v =>
      {| books := books s; isFormOpen := isFormOpen s; editingBook := editingBook s;
         formData := formData s; loading := loading s; error := v |}
  | PreventDefault => s
  | ConsoleError _ => s
  end.

(** The outside world of one handler run: what the user answers to a
    [confirm] dialog, and what a [fetch] comes back with, which may depend
    on the requests sent before it in the run (oldest first). *)
Record Env : Type := {
  confirm : string -> bool;
  fetch : list Request -> Request -> FetchResult
}.

Inductive event : Type :=
| EvAct (a : action)
| EvConfirm (message : string) (answer : bool)
| EvFetch (req : Request) (res : FetchResult).

Inductive completion (A : Type) : Type :=
| Normal (a : A)
| Uncaught (e : exn).

Arguments Normal {A} a.
Arguments Uncaught {A} e.

Record Run (A : Type) : Type := {
  result : completion A;
  final : State;
  trace : list event
}.

Arguments result {A} r.
Arguments final {A} r.
Arguments trace {A} r.

(** Run a handler body to its end from store [s], [sent] being the
    requests already sent. *)
Fixpoint exec {A} (env : Env) (p : Prog A) (s : State) (sent : list Request)
  : Run A :=
  match p with
  | Ret a => {| result := Normal a; final := s; trace := [] |}
  | Throw e => {| result := Uncaught e; final := s; trace := [] |}
  | Act a k =>
      let r := exec env k (apply a s) sent in
      {| result := result r; final := final r; trace := EvAct a :: trace r |}
  | Confirm m k =>
      let b := confirm env m in
      let r := exec env (k b) s sent in
      {| result := result r; final := final r; trace := EvConfirm m b :: trace r |}
  | AwaitFetch req k =>
      let res := fetch env sent req in
      let r := exec env (k res) s (sent ++ [req]) in
      {| result := result r; final := final r; trace := EvFetch req res :: trace r |}
  end.

(** The requests of a trace, in the order they were sent. *)
Fixpoint requests (tr : list event) : list Request :=
  match tr with
  | [] => []
  | EvFetch req _ :: tr' => req :: requests tr'
  | _ :: tr' => requests tr'
  end.

(** The confirm dialogs of a trace. *)
Fixpoint confirms (tr : list event) : list string :=
  match tr with
  | [] => []
  | EvConfirm m _ :: tr' => m :: confirms tr'
  | _ :: tr' => confirms tr'
  end.

(** The run of a program followed by the run [k] of what comes after
    it, when it ends normally. *)
Definition then_run {A B} (r : Run A) (k : A -> State -> list Request -> Run B)
  (sent : list Request) : Run B :=
  match result r with
  | Normal a =>
      let r2 := k a (final r) (sent ++ requests (trace r))%list in
      {| result := result r2; final := final r2; trace := (trace r ++ trace r2)%list |}
  | Uncaught e => {| result := Uncaught e; final := final r; trace := trace r |}
  end.

End Eff.

Import Eff.
Import MonadNotation.
Local Open Scope monad_scope.

(* ===================================================================== *)
(** ** The component (App.tsx, lines 18-128) *)
(* ===================================================================== *)

Section App.

(** const API_BASE_URL = import.meta.env.VITE_API_BASE_URL *)
Variable API_BASE_URL : string.

Definition setBooks v := perform (SetBooks v).
Definition setIsFormOpen v := perform (SetIsFormOpen v).
Definition setEditingBook v := perform (SetEditingBook v).
Definition setFormData v := perform (SetFormData v).
Definition setLoading v := perform (SetLoading v).
Definition setError v := perform (SetError v).
Definition preventDefault := perform PreventDefault.
Definition console_error e := perform (ConsoleError e).

(** The initial values given to useState (lines 21-30). *)
Definition initial : State :=
  {| books := []; isFormOpen := false; editingBook := None;
     formData := BookFormData.mk "" "" "";
     loading := false; error := "" |}.

(** Line 35: the request for the whole collection. *)
Definition books_request : Request :=
  {| url := API_BASE_URL ++ "/books"; method := GET; headers := []; body := None |}.

(** Lines 32-46: the Catalog Loader. *)
Definition fetchBooks : Prog unit :=
  try_catch_finally
    (setLoading true ;;
     response <- await_fetch books_request ;;
     (if negb (ok response) then raise (Error "Failed to fetch books") else ret tt) ;;
     data <- await_json response ;;
     setBooks data ;;
     setError "")
    (fun err =>
       setError "Failed to load books. Make sure API is running." ;;
       console_error err)
    (setLoading false).

(** Lines 124-128. *)
Definition resetForm : Prog unit :=
  setFormData (BookFormData.mk "" "" "") ;;
  setEditingBook None ;;
  setIsFormOpen false.

(** The handlers below are the closures of one render: they read the
    state variables of that render, [formData] and [editingBook]. *)
Section Render.

Variable formData : BookFormData.t.
Variable editingBook : option Book.t.

(** Lines 62-66: the object literal [bookData]. *)
Definition bookData : JS.object :=
  [ ("book_name", JS.VString (BookFormData.book_name formData));
    ("author_name", JS.VString (BookFormData.author_name formData));
    ("isbn", JS.VNumber (JS.parseInt (BookFormData.isbn formData))) ].

(** Lines 68-78: the request of the mutation. *)
Definition submit_request : Request :=
  let url := match editingBook with
             | Some b => API_BASE_URL ++ "/books/" ++ JS.Number_toString (Book.id b)
             | None => API_BASE_URL ++ "/books"
             end in
  let method := match editingBook with Some _ => PUT | None => POST end in
  {| url := url;
     method := method;
     headers := [("Content-Type", "application/json")];
     body := Some (JS.JSON_stringify bookData) |}.

(** Lines 52-91. *)
Definition handleSubmit : Prog unit :=
  preventDefault ;;
  if negb (JS.truthy (BookFormData.book_name formData))
     || negb (JS.truthy (BookFormData.author_name formData))
     || negb (JS.truthy (BookFormData.isbn formData))
  then
    setError "All fields are required"
  else
    try_catch_finally
      (setLoading true ;;
       response <- await_fetch submit_request ;;
       (if negb (ok response) then raise (Error "Failed to save book") else ret tt) ;;
       fetchBooks ;;
       resetForm ;;
       setError "")
      (fun err =>
         setError "Failed to save book" ;;
         console_error err)
      (setLoading false).

(** Lines 172, 185 and 198: the onChange of the three inputs. *)
Definition onChange_book_name (value : string) : Prog unit :=
  setFormData (BookFormData.mk value (BookFormData.author_name formData)
                 (BookFormData.isbn formData)).

Definition onChange_author_name (value : string) : Prog unit :=
  setFormData (BookFormData.mk (BookFormData.book_name formData) value
                 (BookFormData.isbn formData)).

Definition onChange_isbn (value : string) : Prog unit :=
  setFormData (BookFormData.mk (BookFormData.book_name formData)
                 (BookFormData.author_name formData) value).

End Render.

(** Lines 98-100: the request of a deletion. *)
Definition delete_request (id : JS.number) : Request :=
  {| url := API_BASE_URL ++ "/books/" ++ JS.Number_toString id;
     method := DELETE; headers := []; body := None |}.

(** Lines 93-112. *)
Definition handleDelete (id : JS.number) : Prog unit :=
  Confirm "Are you sure you want to delete this book?" (fun answer =>
    if negb answer then ret tt
    else
      try_catch_finally
        (setLoading true ;;
         response <- await_fetch (delete_request id) ;;
         (if negb (ok response) then raise (Error "Failed to delete book") else ret tt) ;;
         fetchBooks ;;
         setError "")
        (fun err =>
           setError "Failed to delete book" ;;
           console_error err)
        (setLoading false)).

(** Lines 114-122. *)
Definition handleEdit (book : Book.t) : Prog unit :=
  setEditingBook (Some book) ;;
  setFormData (BookFormData.mk (Book.book_name book) (Book.author_name book)
                 (JS.Number_toString (Book.isbn book))) ;;
  setIsFormOpen true.

(** Line 139: the onClick of the Add Book button. *)
Definition onClick_AddBook : Prog unit := setIsFormOpen true.

(** *** The user interface

    What the user can do to the rendered component, and the handler each
    event runs: the effect of line 48, the buttons of lines 139, 159, 214,
    241 and 247, the inputs of lines 172-198 and the form of line 164. *)
Inductive ui_event : Type :=
| Mount
| ClickAddBook
| ClickClose
| ClickCancel
| ChangeBookName (value : string)
| ChangeAuthorName (value : string)
| ChangeIsbn (value : string)
| SubmitForm
| ClickEdit (book : Book.t)
| ClickDelete (book : Book.t).

Definition handler (s : State) (ev : ui_event) : Prog unit :=
  match ev with
  | Mount => fetchBooks
  | ClickAddBook => onClick_AddBook
  | ClickClose => resetForm
  | ClickCancel => resetForm
  | ChangeBookName v => onChange_book_name (formData s) v
  | ChangeAuthorName v => onChange_author_name (formData s) v
  | ChangeIsbn v => onChange_isbn (formData s) v
  | SubmitForm => handleSubmit (formData s) (editingBook s)
  | ClickEdit book => handleEdit book
  | ClickDelete book => handleDelete (Book.id book)
  end.

(** The form and its controls are rendered only while [isFormOpen]
    (line 152); a card and its two buttons are rendered for each book of
    the list (lines 235-250). *)
Definition enabled (s : State) (ev : ui_event) : Prop :=
  match ev with
  | Mount | ClickAddBook => True
  | ClickClose | ClickCancel | SubmitForm
  | ChangeBookName _ | ChangeAuthorName _ | ChangeIsbn _ => isFormOpen s = true
  | ClickEdit book | ClickDelete book => In book (books s)
  end.

(** One event, handled to completion. *)
Definition dispatch (env : Env) (s : State) (ev : ui_event) : Run unit :=
  exec env (handler s ev) s [].

(** The states the component can be in. *)
Inductive reachable : State -> Prop :=
| reachable_initial : reachable initial
| reachable_step s env ev :
    reachable s -> enabled s ev -> reachable (final (dispatch env s ev)).

(** Submitting the form of the render with store [s]. *)
Definition submit (env : Env) (s : State) : Run unit :=
  exec env (handleSubmit (formData s) (editingBook s)) s [].

End App.

(* ===================================================================== *)
(** ** Vocabulary of the specification *)
(* ===================================================================== *)

(** A draft is valid when its three fields are filled in. *)
Definition valid_draft (d : BookFormData.t) : bool :=
  JS.truthy (BookFormData.book_name d)
  && JS.truthy (BookFormData.author_name d)
  && JS.truthy (BookFormData.isbn d).

(** A request failed: a transport error, or a status outside 200-299. *)
Definition failed (res : FetchResult) : bool :=
  match res with
  | Rejected _ => true
  | Resolved r => negb (ok r)
  end.

(** The requests of a trace with the answer each one got, in order. *)
Fixpoint fetches (tr : list event) : list (Request * FetchResult) :=
  match tr with
  | [] => []
  | EvFetch req res :: tr' => (req, res) :: fetches tr'
  | _ :: tr' => fetches tr'
  end.

(** The form state machine of the specification, read off the store. *)
Inductive form_state : Type :=
| closed
| creating
| editing (record : Book.t).

Definition form_state_of (s : State) : form_state :=
  if isFormOpen s then
    match editingBook s with
    | Some b => editing b
    | None => creating
    end
  else closed.

Definition empty_draft : BookFormData.t := BookFormData.mk "" "" "".

(** *** Stores the handlers leave behind *)

(** After a load that brought [data]. *)
Definition loaded (s : State) (data : list Book.t) : State :=
  {| books := data; isFormOpen := isFormOpen s; editingBook := editingBook s;
     formData := formData s; loading := false; error := "" |}.

(** After a load that failed. *)
Definition load_failed (s : State) : State :=
  {| books := books s; isFormOpen := isFormOpen s; editingBook := editingBook s;
     formData := formData s; loading := false;
     error := "Failed to load books. Make sure API is running." |}.

(** After a run of the loader, by the answer to its request. *)
Definition after_load (s : State) (res : FetchResult) : State :=
  match res with
  | Rejected _ => load_failed s
  | Resolved r =>
      if ok r then
        match json r with
        | inr data => loaded s data
        | inl _ => load_failed s
        end
      else load_failed s
  end.

(** After a submission stopped by the presence check. *)
Definition rejected_draft (s : State) : State :=
  {| books := books s; isFormOpen := isFormOpen s; editingBook := editingBook s;
     formData := formData s; loading := loading s;
     error := "All fields are required" |}.

(** After a mutation whose request failed, [message] being the text of
    the catch block. *)
Definition mutation_failed (s : State) (message : string) : State :=
  {| books := books s; isFormOpen := isFormOpen s; editingBook := editingBook s;
     formData := formData s; loading := false; error := message |}.

(** After a submission whose request succeeded, [reload] being the answer
    to the load that follows it. *)
Definition saved (s : State) (reload : FetchResult) : State :=
  {| books := books (after_load s reload); isFormOpen := false; editingBook := None;
     formData := empty_draft; loading := false; error := "" |}.

(** After a deletion whose request succeeded. *)
Definition deleted (s : State) (reload : FetchResult) : State :=
  {| books := books (after_load s reload); isFormOpen := isFormOpen s;
     editingBook := editingBook s; formData := formData s;
     loading := false; error := "" |}.

(** *** Mutations *)

(** The two mutation handlers: submitting the draft (a create or an
    update, by [editingBook]) and deleting a book. *)
Inductive mutation : Type :=
| SubmitDraft
| DeleteBook (id : JS.number).

Definition confirm_message : string := "Are you sure you want to delete this book?".

Section Mutations.

Variable API_BASE_URL : string.

Definition mutation_run (env : Env) (s : State) (m : mutation) : Run unit :=
  match m with
  | SubmitDraft => submit API_BASE_URL env s
  | DeleteBook id => exec env (handleDelete API_BASE_URL id) s []
  end.

Definition mutation_request (s : State) (m : mutation) : Request :=
  match m with
  | SubmitDraft => submit_request API_BASE_URL (formData s) (editingBook s)
  | DeleteBook id => delete_request API_BASE_URL id
  end.

(** The handler gets as far as its request: the draft is valid, or the
    user confirmed. *)
Definition attempted (env : Env) (s : State) (m : mutation) : bool :=
  match m with
  | SubmitDraft => valid_draft (formData s)
  | DeleteBook _ => confirm env confirm_message
  end.

Definition failure_message (m : mutation) : string :=
  match m with
  | SubmitDraft => "Failed to save book"
  | DeleteBook _ => "Failed to delete book"
  end.

End Mutations.

(** *** Concrete inputs *)

Definition localhost : string := "http://localhost:8000".

Definition dune : Book.t :=
  Book.mk (JS.Num 3) "Dune" "Herbert" (JS.Num 9780441013593).

Definition dune_draft : BookFormData.t :=
  BookFormData.mk "Dune" "Herbert" "9780441013593".

(** The form open for a new book, with the draft typed in. *)
Definition creating_dune : State :=
  {| books := []; isFormOpen := true; editingBook := None;
     formData := dune_draft; loading := false; error := "" |}.

(** The form open on an existing book, the author changed. *)
Definition editing_dune : State :=
  {| books := [dune]; isFormOpen := true; editingBook := Some dune;
     formData := BookFormData.mk "Dune" "Frank Herbert" "9780441013593";
     loading := false; error := "" |}.

(** A server that answers every request with status 200 and the
    collection [data], and a user who confirms. *)
Definition server_ok (data : list Book.t) : Env :=
  {| confirm := fun _ => true;
     fetch := fun _ _ => Resolved {| status := 200; json := inr data |} |}.

(** A server that answers every request with status 500 and no JSON. *)
Definition server_500 : Env :=
  {| confirm := fun _ => true;
     fetch := fun _ _ =>
       Resolved {| status := 500;
                   json := inl (SyntaxError "Unexpected end of JSON input") |} |}.

(** No server at all: every fetch rejects. *)
Definition server_down : Env :=
  {| confirm := fun _ => true;
     fetch := fun _ _ => Rejected (TypeError "Failed to fetch") |}.

(** A user who answers no to the dialog. *)
Definition user_declines : Env :=
  {| confirm := fun _ => false;
     fetch := fun _ _ => Resolved {| status := 200; json := inr [] |} |}.

(** *** The isbn between text and number *)

Section IsbnClaims.

Variable API_BASE_URL : string.
Variable env : Env.

(** Submitting from store [s] passes the presence check and sends a
    request whose payload carries, as isbn, what parseInt made of the
    isbn text of the draft, and that is not an integer. *)
Definition sends_unparsed_isbn (s : State) : Prop :=
  valid_draft (formData s) = true
  /\ exists req rest,
    requests (trace (submit API_BASE_URL env s)) = req :: rest
    /\ body req
       = Some (JS.JSON_stringify
                 [ ("book_name", JS.VString (BookFormData.book_name (formData s)));
                   ("author_name", JS.VString (BookFormData.author_name (formData s)));
                   ("isbn", JS.VNumber (JS.parseInt (BookFormData.isbn (formData s)))) ])
    /\ JS.isInteger (JS.parseInt (BookFormData.isbn (formData s))) = false.

(** The record [b], opened for edit from store [s] and submitted with
    the draft untouched, is sent back with its own field values, by a PUT
    addressed to its id. *)
Definition resubmits_original (s : State) (b : Book.t) : Prop :=
  let s1 := final (dispatch API_BASE_URL env s (ClickEdit b)) in
  let original :=
    [ ("book_name", JS.VString (Book.book_name b));
      ("author_name", JS.VString (Book.author_name b));
      ("isbn", JS.VNumber (Book.isbn b)) ] in
  bookData (formData s1) = original
  /\ exists rest,
       requests (trace (dispatch API_BASE_URL env s1 SubmitForm))
       = {| url := API_BASE_URL ++ "/books/" ++ JS.Number_toString (Book.id b);
            method := PUT;
            headers := [("Content-Type", "application/json")];
            body := Some (JS.JSON_stringify original) |} :: rest.

End IsbnClaims.




(** A draft with a title missing and an isbn text without a leading
    digit. *)
Definition untitled_draft : State :=
  {| books := []; isFormOpen := true; editingBook := None;
     formData := BookFormData.mk "" "Herbert" ".5";
     loading := false; error := "" |}.



(** A record whose isbn is the integer 10^21. *)
Definition long_isbn : Book.t :=
  Book.mk (JS.Num 3) "Dune" "Herbert" (JS.Num (10 ^ 21)).

(* ===================================================================== *)
(** ** The rendered page (App.tsx, lines 130-266) *)
(* ===================================================================== *)

Module View.

(** The props the component passes to its elements. *)
Inductive prop : Type :=
| className (v : string)
| type_ (v : string)
| value (v : string)
| placeholder (v : string)
| disabled (v : bool)
| key (v : JS.number)
| onClick (h : Prog unit)
| onSubmit (h : Prog unit)
| onChange (h : string -> Prog unit).

Unset Elimination Schemes.

(** An element tree: text, or an element with its props and children. *)
Inductive node : Type :=
| text (s : string)
| element (tag : string) (props : list prop) (children : list node).

Set Elimination Schemes.

(** A handler bound in the tree. *)
Inductive binding : Type :=
| Click (h : Prog unit)
| Submit (h : Prog unit)
| Change (h : string -> Prog unit).

Definition prop_binding (p : prop) : list binding :=
  match p with
  | onClick h => [Click h]
  | onSubmit h => [Submit h]
  | onChange h => [Change h]
  | _ => []
  end.

(** The handlers bound in a tree, in document order. *)
Fixpoint bindings (n : node) : list binding :=
  match n with
  | text _ => []
  | element _ ps cs => (flat_map prop_binding ps ++ flat_map bindings cs)%list
  end.

(** The texts of a tree, in document order. *)
Fixpoint texts (n : node) : list string :=
  match n with
  | text s => [s]
  | element _ _ cs => flat_map texts cs
  end.

End View.

Import View.

Section Page.

Variable API_BASE_URL : string.

(** The state variables of the render. *)
Variable s : State.

(** Lines 133-144. *)
Definition header : node :=
  element "div" [className "bg-white rounded-lg shadow-lg p-6 mb-6"]
    [ element "div" [className "flex items-center justify-between"]
        [ element "div" [className "flex items-center gap-3"]
            [ element "BookOpen" [className "w-8 h-8 text-indigo-600"] [];
              element "h1" [className "text-3xl font-bold text-gray-800"]
                [text "Bookstore Manager"] ];
          element "button"
            [ onClick onClick_AddBook;
              className "flex items-center gap-2 bg-indigo-600 text-white px-4 py-2 rounded-lg hover:bg-indigo-700 transition" ]
            [text "Add Book"] ] ].

(** Lines 146-150: rendered when [error] is truthy. *)
Definition banner : list node :=
  if JS.truthy (error s) then
    [ element "div"
        [className "bg-red-100 border border-red-400 text-red-700 px-4 py-3 rounded-lg mb-6"]
        [text (error s)] ]
  else [].

Definition input_className : string :=
  "w-full px-3 py-2 border border-gray-300 rounded-lg focus:ring-2 focus:ring-indigo-500 focus:border-transparent".

Definition label_className : string :=
  "block text-sm font-medium text-gray-700 mb-1".

(** Lines 152-221: rendered when [isFormOpen]. *)
Definition modal : list node :=
  if isFormOpen s then
    [ element "div"
        [className "fixed inset-0 bg-black bg-opacity-50 flex items-center justify-center z-50"]
        [ element "div" [className "bg-white rounded-lg shadow-xl p-6 w-full max-w-md"]
            [ element "div" [className "flex items-center justify-betwee mb-4"]
                [ element "h2" [className "text-2xl font-bold text-gray-800"]
                    [text (match editingBook s with
                           | Some _ => "Edit Book"
                           | None => "Add New Book"
                           end)];
                  element "button"
                    [onClick resetForm; className "text-gray-500 hover:text-gray-700"]
                    [element "X" [className "w-6 h-6"] []] ];
              element "form"
                [ onSubmit (handleSubmit API_BASE_URL (formData s) (editingBook s));
                  className "space-y-4" ]
                [ element "div" []
                    [ element "label" [className label_className] [text "Book Name"];
                      element "input"
                        [ type_ "text";
                          value (BookFormData.book_name (formData s));
                          onChange (onChange_book_name (formData s));
                          className input_className;
                          placeholder "Enter book name" ] [] ];
                  element "div" []
                    [ element "label" [className label_className] [text "Author Name"];
                      element "input"
                        [ type_ "text";
                          value (BookFormData.author_name (formData s));
                          onChange (onChange_author_name (formData s));
                          className input_className;
                          placeholder "Enter author name" ] [] ];
                  element "div" []
                    [ element "label" [className label_className] [text "ISBN"];
                      element "input"
                        [ type_ "number";
                          value (BookFormData.isbn (formData s));
                          onChange (onChange_isbn (formData s));
                          className input_className;
                          placeholder "Enter ISBN" ] [] ];
                  element "div" [className "flex gap-3 pt-4"]
                    [ element "button"
                        [ type_ "submit";
                          disabled (loading s);
                          className "flex-1 flex items-center justify-center gap-2 bg-indigo-600 text-white px-4 py-2 rounded-lg hover:bg-indigo-700 transition disabled:opacity-50" ]
                        [text (match editingBook s with
                               | Some _ => "Update"
                               | None => "Create"
                               end)];
                      element "button"
                        [ type_ "button";
                          onClick resetForm;
                          className "flex-1 bg-gray-200 text-gray-700 px-4 py-2 rounded-lg hover:bg-gray-300 transition" ]
                        [text "Cancel"] ] ] ] ] ]
  else [].

(** Lines 224-227. *)
Definition loading_panel : node :=
  element "div" [className "text-center py-12 text-gray-500"] [text "Loading books..."].

(** Lines 228-232. *)
Definition empty_panel : node :=
  element "div" [className "bg-white rounded-lg shadow-lg p-12 text-center"]
    [ element "BookOpen" [className "bg-white rounded-lg shadow-lg p-12 text-center"] [];
      element "h3" [className "text-xl font-semibold text-gray-600 mb-2"]
        [text "No books yet"];
      element "p" [className "text-gray-500"]
        [text ("Click " ++ JS.dquote ++ "Add Book" ++ JS.dquote ++ " to get started")%string] ].

(** Lines 236-258: the card of one book. *)
Definition card (book : Book.t) : node :=
  element "div"
    [ key (Book.id book);
      className "bg-white rounded-lg shadow-lg p-6 hover:shadow-xl transition" ]
    [ element "div" [className "flex items-start justify-between mb-3"]
        [ element "BookOpen" [className "w-8 h-8 text-indigo-600"] [];
          element "div" [className "flex gap-2"]
            [ element "button"
                [ onClick (handleEdit book);
                  className "text-blue-600 hover:text-blue-800 transition" ]
                [element "Edit2" [className "w-5 h-5"] []];
              element "button"
                [ onClick (handleDelete API_BASE_URL (Book.id book));
                  className "text-red-600 hover:text-red-800 transition" ]
                [element "Trash2" [className "w-5 h5"] []] ] ];
      element "h3" [className "text-xl font-bold text-gray-800 mb-2"]
        [text (Book.book_name book)];
      element "p" [className "text-gray-600 mb-1"]
        [text "by "; text (Book.author_name book)];
      element "p" [className "text-sm text-gray-500"]
        [text "ISBN: "; text (JS.Number_toString (Book.isbn book))] ].

(** Lines 224-261: the list area. *)
Definition list_area : node :=
  if loading s && (length (books s) =? 0)%nat then loading_panel
  else if (length (books s) =? 0)%nat then empty_panel
  else
    element "div" [className "grid grid-cols-1 md:grid-cols-2 lg:grid-cols-3 gap-6"]
      (map card (books s)).

(** Lines 130-264: what the component returns. *)
Definition render : node :=
  element "div" [className "min-h-screen bg-gradient-to-br from-blue-50 to-indigo-100"]
    [ element "div" [className "max-w-6xl mx-auto p-6"]
        ([header] ++ banner ++ modal ++ [list_area])%list ].

End Page.

(* ===================================================================== *)
(** ** Observations on a run *)
(* ===================================================================== *)

(** The requests of a run, each with the store as it is while the
    request is in flight. *)
Fixpoint in_flight {A} (env : Env) (p : Prog A) (s : State) (sent : list Request)
  : list (Request * State) :=
  match p with
  | Ret _ => []
  | Throw _ => []
  | Act a k => in_flight env k (Eff.apply a s) sent
  | Confirm m k => in_flight env (k (confirm env m)) s sent
  | AwaitFetch req k =>
      (req, s) :: in_flight env (k (fetch env sent req)) s (sent ++ [req])
  end.

(** What a run passed to console.error, in order. *)
Fixpoint logged (tr : list event) : list exn :=
  match tr with
  | [] => []
  | EvAct (ConsoleError e) :: tr' => e :: logged tr'
  | _ :: tr' => logged tr'
  end.

(** An event by which a handler writes nothing to the store, or nothing
    but [loading := true]. *)
Definition writes_nothing (e : event) : bool :=
  match e with
  | EvAct (SetLoading true) => true
  | EvAct PreventDefault => true
  | EvAct _ => false
  | EvConfirm _ _ => true
  | EvFetch _ _ => true
  end.

Fixpoint has_fetch (tr : list event) : bool :=
  match tr with
  | [] => false
  | EvFetch _ _ :: _ => true
  | _ :: tr' => has_fetch tr'
  end.

(** Every event that has a request after it writes nothing. *)
Fixpoint quiet_before_requests (tr : list event) : bool :=
  match tr with
  | [] => true
  | e :: tr' =>
      (if has_fetch tr' then writes_nothing e else true) && quiet_before_requests tr'
  end.

(** What the list becomes when an answer arrives: the collection of a
    successful answer to a GET, and otherwise what it was. *)
Definition received (shown : list Book.t) (x : Request * FetchResult) : list Book.t :=
  match x with
  | (req, Resolved r) =>
      if Method_eqb (method req) GET && ok r then
        match json r with
        | inr data => data
        | inl _ => shown
        end
      else shown
  | (_, Rejected _) => shown
  end.

Section Histories.

Variable API_BASE_URL : string.

(** The store after a sequence of events, each handled in the
    environment that goes with it. *)
Fixpoint run_from (s : State) (hs : list (Env * ui_event)) : State :=
  match hs with
  | [] => s
  | (env, ev) :: hs' => run_from (final (dispatch API_BASE_URL env s ev)) hs'
  end.

(** The requests sent along that sequence, each with its answer, oldest
    first. *)
Fixpoint answers (s : State) (hs : list (Env * ui_event))
  : list (Request * FetchResult) :=
  match hs with
  | [] => []
  | (env, ev) :: hs' =>
      (fetches (trace (dispatch API_BASE_URL env s ev))
       ++ answers (final (dispatch API_BASE_URL env s ev)) hs')%list
  end.

End Histories.

(** The events that neither talk to the server nor to the user. *)
Definition is_local (ev : ui_event) : bool :=
  match ev with
  | Mount | SubmitForm | ClickDelete _ => false
  | _ => true
  end.

(** What is thrown for the answer to a request, if anything: the
    rejection, or the Error the handler throws on a status outside
    200-299, [message] being its text. *)
Definition cause (message : string) (res : FetchResult) : option exn :=
  match res with
  | Rejected e => Some e
  | Resolved r => if ok r then None else Some (Error message)
  end.

(** What goes wrong in a run of the loader, if anything. *)
Definition load_cause (res : FetchResult) : option exn :=
  match res with
  | Rejected e => Some e
  | Resolved r =>
      if ok r then match json r with inl e => Some e | inr _ => None end
      else Some (Error "Failed to fetch books")
  end.

(** The decimal numeral of a natural number. *)
Definition numeral (n : Z) : string := JS.string_of_digits (JS.to_digits n).

(** A character that ends the digits parseInt reads in radix 10 and does
    not make a radix prefix. *)
Definition ends_digits (c : ascii) : Prop :=
  JS.radix_digit 10 c = None /\ c <> "x"%char /\ c <> "X"%char.

(** The store while a request of a handler started from [s] is in
    flight. *)
Definition busy (s : State) : State :=
  {| books := books s; isFormOpen := isFormOpen s; editingBook := editingBook s;
     formData := formData s; loading := true; error := error s |}.

(** The binding [b] of the page rendered from [s] is how event [ev]
    reaches its handler. *)
Definition fires (API_BASE_URL : string) (s : State) (b : binding) (ev : ui_event)
  : Prop :=
  match b, ev with
  | Click h, ClickAddBook => h = handler API_BASE_URL s ev
  | Click h, ClickClose => h = handler API_BASE_URL s ev
  | Click h, ClickCancel => h = handler API_BASE_URL s ev
  | Click h, ClickEdit _ => h = handler API_BASE_URL s ev
  | Click h, ClickDelete _ => h = handler API_BASE_URL s ev
  | Submit h, SubmitForm => h = handler API_BASE_URL s ev
  | Change f, ChangeBookName _ =>
      f = (fun v => handler API_BASE_URL s (ChangeBookName v))
  | Change f, ChangeAuthorName _ =>
      f = (fun v => handler API_BASE_URL s (ChangeAuthorName v))
  | Change f, ChangeIsbn _ =>
      f = (fun v => handler API_BASE_URL s (ChangeIsbn v))
  | _, _ => False
  end.

(** A server that accepts every mutation and then cannot be reached for
    the reload. *)
Definition server_write_only : Env :=
  {| confirm := fun _ => true;
     fetch := fun _ req =>
       if is_mutation req then Resolved {| status := 204; json := inr [] |}
       else Rejected (TypeError "Failed to fetch") |}.

(** The store after the first load brought one book. *)
Definition one_book_loaded : State :=
  final (dispatch localhost (server_ok [dune]) (initial) Mount).

Arguments await_json r /.
Arguments await_fetch req /.
Arguments JS.parseInt : simpl never.
Arguments JS.Number_toString : simpl never.
Arguments JS.JSON_stringify : simpl never.
Arguments submit_request : simpl never.
Arguments delete_request : simpl never.
Arguments books_request : simpl never.

(* ===================================================================== *)
(** ** Properties *)
(* ===================================================================== *)

(** *** Running composed programs *)

Section Exec.

Context {A B : Type} (env : Env).

Lemma exec_bind (p : Prog A) (f : A -> Prog B) (s : State) (sent : list Request) :
  exec env (Eff.bind p f) s sent
  = then_run (exec env p s sent) (fun a s' sent' => exec env (f a) s' sent') sent.
Proof.
  revert s sent.
  induction p as [a | e | a k IH | m k IH | req k IH]; intros s sent; simpl.
  - unfold then_run; simpl. rewrite app_nil_r.
    destruct (exec env (f a) s sent); reflexivity.
  - reflexivity.
  - rewrite IH. unfold then_run; simpl.
    destruct (result (exec env k (Eff.apply a s) sent)); reflexivity.
  - rewrite IH. unfold then_run; simpl.
    destruct (result (exec env (k (confirm env m)) s sent)); reflexivity.
  - rewrite IH. unfold then_run; simpl.
    destruct (result (exec env (k (fetch env sent req)) s (sent ++ [req])));
      [ rewrite <- app_assoc | ]; reflexivity.
Qed.

End Exec.

(** *** Tactics *)

(** Case analysis on what the environment answers and on the tests the
    handlers make on the answer; an answer already known is reused. *)
Ltac env_case :=
  match goal with
  | H : fetch ?env ?sent ?req = _ |- context [fetch ?env ?sent ?req] => rewrite H
  | H : ok ?r = _ |- context [ok ?r] => rewrite H
  | H : json ?r = _ |- context [json ?r] => rewrite H
  | H : confirm ?env ?m = _ |- context [confirm ?env ?m] => rewrite H
  | |- context [fetch ?env ?sent ?req] =>
      let E := fresh "Efetch" in
      destruct (fetch env sent req) as [? | ?] eqn:E
  | |- context [ok ?r] =>
      let E := fresh "Eok" in destruct (ok r) eqn:E
  | |- context [json ?r] =>
      let E := fresh "Ejson" in destruct (json r) as [? | ?] eqn:E
  | |- context [confirm ?env ?m] =>
      let E := fresh "Econfirm" in destruct (confirm env m) eqn:E
  end.

Ltac run_handler := cbv zeta; simpl; repeat (env_case; simpl).

(** *** The handlers, run *)

Section Handlers.

Variable API_BASE_URL : string.
Variable env : Env.

Lemma exec_fetchBooks (s : State) (sent : list Request) :
  let res := fetch env sent (books_request API_BASE_URL) in
  let run := exec env (fetchBooks API_BASE_URL) s sent in
  result run = Normal tt
  /\ final run = after_load s res
  /\ fetches (trace run) = [(books_request API_BASE_URL, res)].
Proof.
  unfold fetchBooks, after_load. run_handler; repeat split; reflexivity.
Qed.

Lemma valid_draft_inv (d : BookFormData.t) :
  valid_draft d = true ->
  JS.truthy (BookFormData.book_name d) = true
  /\ JS.truthy (BookFormData.author_name d) = true
  /\ JS.truthy (BookFormData.isbn d) = true.
Proof.
  unfold valid_draft. intros H.
  apply andb_true_iff in H as [H Hi]. apply andb_true_iff in H as [Hb Ha].
  auto.
Qed.

Lemma truthy_iff (v : string) : JS.truthy v = true <-> v <> "".
Proof. destruct v; simpl; split; congruence. Qed.

Lemma valid_draft_iff (d : BookFormData.t) :
  valid_draft d = true <->
  BookFormData.book_name d <> "" /\ BookFormData.author_name d <> ""
  /\ BookFormData.isbn d <> "".
Proof.
  rewrite <- !truthy_iff. split.
  - apply valid_draft_inv.
  - intros (Hb & Ha & Hi). unfold valid_draft. rewrite Hb, Ha, Hi. reflexivity.
Qed.

Lemma exec_submit_invalid (s : State) :
  valid_draft (formData s) = false ->
  submit API_BASE_URL env s
  = {| result := Normal tt; final := rejected_draft s;
       trace := [EvAct PreventDefault; EvAct (SetError "All fields are required")] |}.
Proof.
  unfold valid_draft, submit, handleSubmit. intros H.
  destruct (JS.truthy (BookFormData.book_name (formData s)));
    destruct (JS.truthy (BookFormData.author_name (formData s)));
    destruct (JS.truthy (BookFormData.isbn (formData s)));
    try discriminate H; reflexivity.
Qed.

Lemma exec_submit_valid (s : State) :
  valid_draft (formData s) = true ->
  let req := submit_request API_BASE_URL (formData s) (editingBook s) in
  let res := fetch env [] req in
  let reload := fetch env [req] (books_request API_BASE_URL) in
  let run := submit API_BASE_URL env s in
  result run = Normal tt
  /\ final run = (if failed res then mutation_failed s "Failed to save book"
                  else saved s reload)
  /\ fetches (trace run)
     = (req, res) :: (if failed res then []
                      else [(books_request API_BASE_URL, reload)]).
Proof.
  intros H. apply valid_draft_inv in H as (Hb & Ha & Hi).
  unfold submit, handleSubmit, fetchBooks, saved, after_load, failed.
  rewrite Hb, Ha, Hi.
  run_handler; repeat split; reflexivity.
Qed.

Lemma exec_delete_declined (s : State) (id : JS.number) :
  confirm env confirm_message = false ->
  exec env (handleDelete API_BASE_URL id) s []
  = {| result := Normal tt; final := s;
       trace := [EvConfirm confirm_message false] |}.
Proof.
  unfold handleDelete, confirm_message. intros H. simpl. rewrite H. reflexivity.
Qed.

Lemma exec_delete_confirmed (s : State) (id : JS.number) :
  confirm env confirm_message = true ->
  let req := delete_request API_BASE_URL id in
  let res := fetch env [] req in
  let reload := fetch env [req] (books_request API_BASE_URL) in
  let run := exec env (handleDelete API_BASE_URL id) s [] in
  result run = Normal tt
  /\ final run = (if failed res then mutation_failed s "Failed to delete book"
                  else deleted s reload)
  /\ fetches (trace run)
     = (req, res) :: (if failed res then []
                      else [(books_request API_BASE_URL, reload)]).
Proof.
  unfold handleDelete, confirm_message, fetchBooks, deleted, after_load, failed.
  intros H. cbv zeta. simpl. rewrite H.
  run_handler; repeat split; reflexivity.
Qed.

Lemma requests_fetches (tr : list event) : requests tr = map fst (fetches tr).
Proof.
  induction tr as [| [a | m b | req res] tr IH]; simpl; congruence.
Qed.

End Handlers.

(** *** Submitting: payload, request, presence check *)

Section SubmitProperties.

Variable API_BASE_URL : string.
Variable env : Env.

(** C1. For every valid draft, submit builds the request payload with
    exactly the three fields book_name (the title), author_name (the
    author) and isbn, where the first two are the strings of the draft
    and isbn is the isbn text of the draft parsed by parseInt; the
    request issued carries that object, serialised, as its body. *)
Theorem submit_payload (s : State) :
  valid_draft (formData s) = true ->
  let payload :=
    [ ("book_name", JS.VString (BookFormData.book_name (formData s)));
      ("author_name", JS.VString (BookFormData.author_name (formData s)));
      ("isbn", JS.VNumber (JS.parseInt (BookFormData.isbn (formData s)))) ] in
  bookData (formData s) = payload
  /\ exists req rest,
       requests (trace (submit API_BASE_URL env s)) = req :: rest
       /\ body req = Some (JS.JSON_stringify payload).
Proof.
  intros H payload. split; [reflexivity |].
  destruct (exec_submit_valid API_BASE_URL env s H) as (_ & _ & Hf).
  rewrite requests_fetches, Hf. simpl.
  eexists; eexists; split; reflexivity.
Qed.

(** C2. For every valid draft, submitting issues exactly one mutation
    call: a PUT to /books/{id} with the id of the record being edited
    when there is one, otherwise a POST to /books. *)
Theorem submit_one_mutation (s : State) :
  valid_draft (formData s) = true ->
  let req := submit_request API_BASE_URL (formData s) (editingBook s) in
  filter is_mutation (requests (trace (submit API_BASE_URL env s))) = [req]
  /\ match editingBook s with
     | Some b =>
         method req = PUT
         /\ url req = (API_BASE_URL ++ "/books/" ++ JS.Number_toString (Book.id b))%string
     | None =>
         method req = POST /\ url req = (API_BASE_URL ++ "/books")%string
     end.
Proof.
  intros H req.
  destruct (exec_submit_valid API_BASE_URL env s H) as (_ & _ & Hf).
  rewrite requests_fetches, Hf. fold req.
  split.
  - assert (Hm : is_mutation req = true).
    { unfold req, submit_request, is_mutation. destruct (editingBook s); reflexivity. }
    destruct (failed (fetch env [] req)); simpl; rewrite Hm; reflexivity.
  - unfold req, submit_request. destruct (editingBook s); split; reflexivity.
Qed.

(** C3. For every draft with at least one required field empty, submit
    performs no network call, sets the validation error message and
    returns, with the book list, the draft and the form-open flag
    unchanged. *)
Theorem submit_missing_field (s : State) :
  BookFormData.book_name (formData s) = ""
  \/ BookFormData.author_name (formData s) = ""
  \/ BookFormData.isbn (formData s) = "" ->
  let run := submit API_BASE_URL env s in
  requests (trace run) = []
  /\ result run = Normal tt
  /\ error (final run) = "All fields are required"
  /\ books (final run) = books s
  /\ formData (final run) = formData s
  /\ isFormOpen (final run) = isFormOpen s.
Proof.
  intros H run.
  assert (Hv : valid_draft (formData s) = false).
  { unfold valid_draft.
    destruct H as [H | [H | H]]; rewrite H; simpl;
      rewrite ?andb_false_r; reflexivity. }
  unfold run. rewrite (exec_submit_invalid API_BASE_URL env s Hv).
  repeat split; reflexivity.
Qed.

End SubmitProperties.

Lemma submit_payload_witness :
  valid_draft (formData creating_dune) = true
  /\ exists req rest,
       requests (trace (submit localhost (server_ok [dune]) creating_dune)) = req :: rest
       /\ body req
          = Some (JS.JSON_stringify
                    [ ("book_name", JS.VString "Dune");
                      ("author_name", JS.VString "Herbert");
                      ("isbn", JS.VNumber (JS.Num 9780441013593)) ]).
Proof.
  split; [reflexivity |].
  exact (proj2 (submit_payload localhost (server_ok [dune]) creating_dune eq_refl)).
Defined.

Lemma submit_one_mutation_witness :
  valid_draft (formData editing_dune) = true
  /\ filter is_mutation
       (requests (trace (submit localhost (server_ok [dune]) editing_dune)))
     = [submit_request localhost (formData editing_dune) (editingBook editing_dune)]
  /\ method (submit_request localhost (formData editing_dune) (editingBook editing_dune))
     = PUT
  /\ url (submit_request localhost (formData editing_dune) (editingBook editing_dune))
     = "http://localhost:8000/books/3".
Proof.
  split; [reflexivity |].
  exact (submit_one_mutation localhost (server_ok [dune]) editing_dune eq_refl).
Defined.

Lemma submit_missing_field_witness :
  BookFormData.isbn (formData initial) = ""
  /\ requests (trace (submit localhost server_down initial)) = []
  /\ error (final (submit localhost server_down initial)) = "All fields are required"
  /\ books (final (submit localhost server_down initial)) = books initial.
Proof.
  split; [reflexivity |].
  destruct (submit_missing_field localhost server_down initial
              (or_intror (or_intror eq_refl))) as (Hr & _ & He & Hb & _).
  repeat split; assumption.
Defined.

(** *** Mutations that fail, and the order of mutation and refresh *)

Section MutationProperties.

Variable API_BASE_URL : string.
Variable env : Env.

Lemma exec_mutation (s : State) (m : mutation) :
  attempted env s m = true ->
  let req := mutation_request API_BASE_URL s m in
  let res := fetch env [] req in
  let reload := fetch env [req] (books_request API_BASE_URL) in
  let run := mutation_run API_BASE_URL env s m in
  result run = Normal tt
  /\ final run = (if failed res then mutation_failed s (failure_message m)
                  else match m with
                       | SubmitDraft => saved s reload
                       | DeleteBook _ => deleted s reload
                       end)
  /\ fetches (trace run)
     = (req, res) :: (if failed res then []
                      else [(books_request API_BASE_URL, reload)]).
Proof.
  destruct m as [| id]; simpl; intros H.
  - exact (exec_submit_valid API_BASE_URL env s H).
  - exact (exec_delete_confirmed API_BASE_URL env s id H).
Qed.

(** C4. For every state and every mutation (create, update or delete)
    whose network request fails, by a transport error or a status outside
    200-299, the book list after the handler equals the list before it:
    the store differs from the one before only by the error message and
    the loading flag. *)
Theorem failed_mutation_keeps_books (s : State) (m : mutation) :
  attempted env s m = true ->
  failed (fetch env [] (mutation_request API_BASE_URL s m)) = true ->
  let run := mutation_run API_BASE_URL env s m in
  books (final run) = books s
  /\ final run
     = {| books := books s; isFormOpen := isFormOpen s;
          editingBook := editingBook s; formData := formData s;
          loading := false; error := failure_message m |}.
Proof.
  intros Ha Hf run.
  destruct (exec_mutation s m Ha) as (_ & Hfin & _).
  rewrite Hf in Hfin. unfold run. rewrite Hfin. split; reflexivity.
Qed.

Lemma exec_mutation_not_attempted (s : State) (m : mutation) :
  attempted env s m = false ->
  fetches (trace (mutation_run API_BASE_URL env s m)) = [].
Proof.
  destruct m as [| id]; unfold mutation_run, attempted; intros H.
  - rewrite (exec_submit_invalid API_BASE_URL env s H). reflexivity.
  - rewrite (exec_delete_declined API_BASE_URL env s id H). reflexivity.
Qed.

(** C8. In every run of a mutation handler the requests, each with its
    answer, are these and in this order: none when the handler stops
    before its request; otherwise the mutation first, and after it the
    refresh (the GET of the whole list) exactly when the answer to the
    mutation has come back and is a success.  The refresh is thus never
    sent before or instead of the mutation, and the server answers it
    having seen the mutation. *)
Theorem refresh_follows_mutation (s : State) (m : mutation) :
  let req := mutation_request API_BASE_URL s m in
  let res := fetch env [] req in
  is_mutation req = true
  /\ is_mutation (books_request API_BASE_URL) = false
  /\ fetches (trace (mutation_run API_BASE_URL env s m))
     = if attempted env s m then
         (req, res)
         :: (if failed res then []
             else [(books_request API_BASE_URL,
                    fetch env [req] (books_request API_BASE_URL))])
       else [].
Proof.
  intros req res. split; [| split; [reflexivity |]].
  - unfold req. destruct m; simpl; [| reflexivity].
    unfold submit_request, is_mutation. destruct (editingBook s); reflexivity.
  - destruct (attempted env s m) eqn:Ha.
    + destruct (exec_mutation s m Ha) as (_ & _ & Hf). exact Hf.
    + exact (exec_mutation_not_attempted s m Ha).
Qed.

End MutationProperties.

Lemma failed_mutation_keeps_books_witness :
  attempted server_500 editing_dune (DeleteBook (JS.Num 3)) = true
  /\ failed (fetch server_500 []
               (mutation_request localhost editing_dune (DeleteBook (JS.Num 3)))) = true
  /\ books (final (mutation_run localhost server_500 editing_dune (DeleteBook (JS.Num 3))))
     = [dune].
Proof.
  split; [reflexivity | split; [reflexivity |]].
  exact (proj1 (failed_mutation_keeps_books localhost server_500 editing_dune
                  (DeleteBook (JS.Num 3)) eq_refl eq_refl)).
Defined.

(** The order of the requests of a successful creation. *)
Example create_then_refresh :
  map (fun x => method (fst x))
    (fetches (trace (mutation_run localhost (server_ok [dune]) creating_dune SubmitDraft)))
  = [POST; GET].
Proof. vm_compute. reflexivity. Qed.

(** *** The loader, deletion and the form *)

Section LoaderDeleteForm.

Variable API_BASE_URL : string.
Variable env : Env.

(** C6. For every run of the Catalog Loader: when the answer is a
    response with a status in 200-299 carrying a collection, the book
    list is replaced by that collection and the error message is
    cleared; when the request fails (a transport error or another
    status) an error message is set and the book list is left as it was.
    (A 2xx response whose body is not JSON is handled as a failure.) *)
Theorem fetchBooks_contract (s : State) (sent : list Request) :
  let s' := final (exec env (fetchBooks API_BASE_URL) s sent) in
  match fetch env sent (books_request API_BASE_URL) with
  | Resolved r =>
      if ok r then
        match json r with
        | inr data => books s' = data /\ error s' = ""
        | inl _ =>
            books s' = books s
            /\ error s' = "Failed to load books. Make sure API is running."
        end
      else
        books s' = books s
        /\ error s' = "Failed to load books. Make sure API is running."
  | Rejected _ =>
      books s' = books s
      /\ error s' = "Failed to load books. Make sure API is running."
  end.
Proof.
  intros s'.
  destruct (exec_fetchBooks API_BASE_URL env s sent) as (_ & Hfin & _).
  unfold s'. rewrite Hfin. unfold after_load.
  destruct (fetch env sent (books_request API_BASE_URL)) as [e | r];
    [split; reflexivity |].
  destruct (ok r); [| split; reflexivity].
  destruct (json r); split; reflexivity.
Qed.

(** C7. For every book id, deletion first asks for confirmation.  When
    the user does not confirm, no request is sent and the store is
    unchanged.  When the user confirms, exactly one mutation is sent, a
    DELETE to /books/{id}, and when it succeeds the Catalog Loader is run
    again: its events follow the answer to the DELETE. *)
Theorem delete_requires_confirmation (s : State) (id : JS.number) :
  let run := exec env (handleDelete API_BASE_URL id) s [] in
  let answer := confirm env confirm_message in
  let req := delete_request API_BASE_URL id in
  let res := fetch env [] req in
  (exists rest, trace run = EvConfirm confirm_message answer :: rest)
  /\ method req = DELETE
  /\ url req = (API_BASE_URL ++ "/books/" ++ JS.Number_toString id)%string
  /\ if answer then
       filter is_mutation (requests (trace run)) = [req]
       /\ if failed res then requests (trace run) = [req]
          else
            trace run
            = ([EvConfirm confirm_message true; EvAct (SetLoading true); EvFetch req res]
               ++ trace (exec env (fetchBooks API_BASE_URL)
                           (Eff.apply (SetLoading true) s) [req])
               ++ [EvAct (SetError ""); EvAct (SetLoading false)])%list
     else requests (trace run) = [] /\ final run = s.
Proof.
  intros run answer req res.
  split; [eexists; reflexivity |].
  split; [reflexivity |]. split; [reflexivity |].
  destruct answer eqn:Ha.
  - destruct (exec_delete_confirmed API_BASE_URL env s id Ha) as (_ & _ & Hf).
    cbv zeta in Hf. fold req in Hf. fold res in Hf.
    split.
    + unfold run. rewrite requests_fetches, Hf.
      destruct (failed res); reflexivity.
    + destruct (failed res) eqn:Hfail.
      * unfold run. rewrite requests_fetches, Hf. reflexivity.
      * subst run res req answer.
        unfold failed in Hfail. unfold handleDelete, fetchBooks, confirm_message in *.
        simpl. rewrite Ha. simpl.
        destruct (fetch env [] (delete_request API_BASE_URL id)) as [e | r] eqn:Hres;
          [discriminate Hfail |].
        destruct (ok r) eqn:Hok; [| discriminate Hfail].
        run_handler; reflexivity.
  - unfold run. rewrite (exec_delete_declined API_BASE_URL env s id Ha).
    split; reflexivity.
Qed.

(** C5. The form follows the state machine closed / creating / editing:
    opening a record for edit leads to editing that record, with the
    draft filled from it; cancelling (either button) leads to closed,
    with the draft empty and no record being edited; a submission whose
    request succeeds does the same; a submission that fails, at the
    presence check or at the request, leaves the form in its state, the
    draft as entered, and an error message set. *)
Theorem form_state_machine (s : State) :
  (forall book,
      let s' := final (dispatch API_BASE_URL env s (ClickEdit book)) in
      form_state_of s' = editing book
      /\ formData s' = BookFormData.mk (Book.book_name book) (Book.author_name book)
                         (JS.Number_toString (Book.isbn book)))
  /\ (let s' := final (dispatch API_BASE_URL env s ClickCancel) in
      form_state_of s' = closed /\ formData s' = empty_draft /\ editingBook s' = None)
  /\ (let s' := final (dispatch API_BASE_URL env s ClickClose) in
      form_state_of s' = closed /\ formData s' = empty_draft /\ editingBook s' = None)
  /\ (let s' := final (dispatch API_BASE_URL env s SubmitForm) in
      if valid_draft (formData s) then
        if failed (fetch env [] (submit_request API_BASE_URL (formData s) (editingBook s)))
        then
          form_state_of s' = form_state_of s /\ formData s' = formData s
          /\ editingBook s' = editingBook s /\ error s' = "Failed to save book"
        else
          form_state_of s' = closed /\ formData s' = empty_draft
          /\ editingBook s' = None
      else
        form_state_of s' = form_state_of s /\ formData s' = formData s
        /\ editingBook s' = editingBook s /\ error s' = "All fields are required").
Proof.
  split; [intros book; split; reflexivity |].
  split; [repeat split; reflexivity |].
  split; [repeat split; reflexivity |].
  unfold dispatch; simpl handler. fold (submit API_BASE_URL env s).
  destruct (valid_draft (formData s)) eqn:Hv.
  - destruct (exec_submit_valid API_BASE_URL env s Hv) as (_ & Hfin & _).
    rewrite Hfin.
    destruct (failed _); repeat split; reflexivity.
  - rewrite (exec_submit_invalid API_BASE_URL env s Hv). repeat split; reflexivity.
Qed.

(** A closed form is blank: in every state the component reaches, when
    the form is closed the draft is empty and no record is being edited,
    so that the Add Book button opens it in the creating state. *)
Lemma closed_form_is_blank (s : State) :
  reachable API_BASE_URL s ->
  isFormOpen s = false -> formData s = empty_draft /\ editingBook s = None.
Proof.
  induction 1 as [| s env' ev Hr IH Hen]; [split; reflexivity |].
  destruct ev; unfold dispatch; simpl handler; simpl in Hen.
  - destruct (exec_fetchBooks API_BASE_URL env' s []) as (_ & Hfin & _).
    rewrite Hfin. unfold after_load.
    destruct (fetch env' [] (books_request API_BASE_URL)) as [e | r];
      [exact IH |].
    destruct (ok r); [| exact IH]. destruct (json r); exact IH.
  - simpl. discriminate.
  - simpl. split; reflexivity.
  - simpl. split; reflexivity.
  - simpl. rewrite Hen. discriminate.
  - simpl. rewrite Hen. discriminate.
  - simpl. rewrite Hen. discriminate.
  - fold (submit API_BASE_URL env' s).
    destruct (valid_draft (formData s)) eqn:Hv.
    + destruct (exec_submit_valid API_BASE_URL env' s Hv) as (_ & Hfin & _).
      rewrite Hfin. destruct (failed _); simpl; [rewrite Hen; discriminate |].
      split; reflexivity.
    + rewrite (exec_submit_invalid API_BASE_URL env' s Hv). simpl.
      rewrite Hen. discriminate.
  - simpl. discriminate.
  - destruct (confirm env' confirm_message) eqn:Hc.
    + destruct (exec_delete_confirmed API_BASE_URL env' s (Book.id book) Hc)
        as (_ & Hfin & _).
      rewrite Hfin. destruct (failed _); exact IH.
    + rewrite (exec_delete_declined API_BASE_URL env' s (Book.id book) Hc). exact IH.
Qed.

(** Every event is handled to the end without an uncaught exception. *)
Lemma dispatch_returns (s : State) (ev : ui_event) :
  result (dispatch API_BASE_URL env s ev) = Normal tt.
Proof.
  destruct ev; unfold dispatch; simpl handler; try reflexivity.
  - exact (proj1 (exec_fetchBooks API_BASE_URL env s [])).
  - fold (submit API_BASE_URL env s).
    destruct (valid_draft (formData s)) eqn:Hv.
    + exact (proj1 (exec_submit_valid API_BASE_URL env s Hv)).
    + rewrite (exec_submit_invalid API_BASE_URL env s Hv). reflexivity.
  - destruct (confirm env confirm_message) eqn:Hc.
    + exact (proj1 (exec_delete_confirmed API_BASE_URL env s (Book.id book) Hc)).
    + rewrite (exec_delete_declined API_BASE_URL env s (Book.id book) Hc). reflexivity.
Qed.

Lemma open_for_create (s : State) :
  reachable API_BASE_URL s ->
  form_state_of s = closed ->
  let s' := final (dispatch API_BASE_URL env s ClickAddBook) in
  form_state_of s' = creating /\ formData s' = empty_draft.
Proof.
  intros Hr Hc.
  assert (Ho : isFormOpen s = false).
  { unfold form_state_of in Hc. destruct (isFormOpen s); [| reflexivity].
    destruct (editingBook s); discriminate. }
  destruct (closed_form_is_blank s Hr Ho) as [Hd He].
  simpl. unfold form_state_of. simpl. rewrite He, Hd. split; reflexivity.
Qed.

End LoaderDeleteForm.

(** *** Numbers and their text *)

Section NumberText.

Import JS.

Lemma digit_cases (d : Z) :
  is_digit d ->
  d = 0 \/ d = 1 \/ d = 2 \/ d = 3 \/ d = 4 \/ d = 5 \/ d = 6 \/ d = 7 \/ d = 8 \/ d = 9.
Proof. unfold is_digit. lia. Qed.

Ltac each_digit H :=
  apply digit_cases in H;
  repeat (destruct H as [H | H]; [subst |]); subst.

Lemma radix_digit_char (d : Z) : is_digit d -> radix_digit 10 (digit_char d) = Some d.
Proof. intros H. each_digit H; reflexivity. Qed.

Lemma digits_prefix_digits (ds : list Z) :
  Forall is_digit ds -> digits_prefix 10 (string_of_digits ds) = ds.
Proof.
  induction 1 as [| d ds Hd _ IH]; simpl; [reflexivity |].
  rewrite (radix_digit_char d Hd), IH. reflexivity.
Qed.

Lemma TrimString_start_digit (d : Z) (rest : string) :
  is_digit d -> TrimString_start (String (digit_char d) rest) = String (digit_char d) rest.
Proof. intros H. each_digit H; reflexivity. Qed.

Lemma read_sign_digit (d : Z) (rest : string) :
  is_digit d -> read_sign (String (digit_char d) rest) = (1, String (digit_char d) rest).
Proof. intros H. each_digit H; reflexivity. Qed.

Lemma read_radix_digits (ds : list Z) :
  Forall is_digit ds -> read_radix (string_of_digits ds) = (10, string_of_digits ds).
Proof.
  intros H. destruct H as [| d1 ds H1 H]; [reflexivity |].
  each_digit H1; try reflexivity.
  destruct H as [| d2 ds H2 H]; [reflexivity |].
  each_digit H2; reflexivity.
Qed.

(** parseInt reads back a plain sequence of decimal digits. *)
Lemma parseInt_digits (ds : list Z) :
  Forall is_digit ds -> ds <> [] ->
  parseInt (string_of_digits ds) = number_of_Z (mathInt 10 ds).
Proof.
  intros H Hne. unfold parseInt.
  destruct ds as [| d ds]; [congruence |].
  pose proof (Forall_inv H) as Hd.
  change (string_of_digits (d :: ds)) with (String (digit_char d) (string_of_digits ds)).
  rewrite (TrimString_start_digit d _ Hd), (read_sign_digit d _ Hd).
  cbv beta iota.
  change (String (digit_char d) (string_of_digits ds)) with (string_of_digits (d :: ds)).
  rewrite (read_radix_digits _ H), (digits_prefix_digits _ H).
  rewrite Z.mul_1_l. reflexivity.
Qed.

(** ... and a minus sign in front of it. *)
Lemma parseInt_minus_digits (ds : list Z) :
  Forall is_digit ds -> ds <> [] ->
  parseInt (String "-" (string_of_digits ds)) = number_of_Z (- mathInt 10 ds).
Proof.
  intros H Hne. unfold parseInt.
  change (TrimString_start (String "-" (string_of_digits ds)))
    with (String "-" (string_of_digits ds)).
  change (read_sign (String "-" (string_of_digits ds)))
    with (-1, string_of_digits ds).
  cbv beta iota.
  rewrite (read_radix_digits _ H), (digits_prefix_digits _ H).
  destruct ds as [| d ds]; [congruence |].
  f_equal; lia.
Qed.

Lemma mathInt_snoc (ds : list Z) (d : Z) :
  mathInt 10 (ds ++ [d]) = mathInt 10 ds * 10 + d.
Proof. unfold mathInt. rewrite fold_left_app. reflexivity. Qed.

(** What [to_digits_aux] puts in front of its accumulator: the digits of
    [n], which denote [n] and whose number fits the size of [n]. *)
Lemma to_digits_aux_spec (fuel : nat) :
  forall (n : Z) (acc : list Z),
    0 <= n < 2 ^ Z.of_nat fuel -> fuel <> O ->
    exists ds,
      to_digits_aux fuel n acc = (ds ++ acc)%list
      /\ Forall is_digit ds
      /\ ds <> []
      /\ mathInt 10 ds = n
      /\ n < 10 ^ Z.of_nat (length ds)
      /\ (0 < n -> 10 ^ (Z.of_nat (length ds) - 1) <= n).
Proof.
  induction fuel as [| f IH]; intros n acc Hn Hfuel.
  - congruence.
  - simpl to_digits_aux. destruct (Z.ltb_spec n 10) as [Hlt | Hge].
    + exists [n]. repeat split.
      * constructor; [unfold is_digit; lia | constructor].
      * discriminate.
      * simpl. lia.
      * simpl. lia.
    + assert (Hq : 0 <= n / 10 < 2 ^ Z.of_nat f).
      { split; [apply Z.div_pos; lia |].
        apply Z.div_lt_upper_bound; [lia |].
        rewrite Nat2Z.inj_succ, Z.pow_succ_r in Hn by lia. lia. }
      assert (Hf : f <> O).
      { intros ->. simpl in Hq.
        assert (0 < n / 10) by (apply Z.div_str_pos; lia). lia. }
      destruct (IH (n / 10) (n mod 10 :: acc) Hq Hf)
        as (ds & Heq & Hds & Hne & Hval & Hup & Hlow).
      exists (ds ++ [n mod 10])%list.
      pose proof (Z.mod_pos_bound n 10 ltac:(lia)) as Hm.
      pose proof (Z.div_mod n 10 ltac:(lia)) as Hdm.
      assert (Hlen : Z.of_nat (length (ds ++ [n mod 10])) = Z.of_nat (length ds) + 1).
      { rewrite length_app. simpl. lia. }
      repeat split.
      * rewrite Heq, <- app_assoc. reflexivity.
      * apply Forall_app. split; [exact Hds |].
        constructor; [unfold is_digit; lia | constructor].
      * destruct ds; discriminate.
      * rewrite mathInt_snoc, Hval. lia.
      * rewrite Hlen, Z.pow_add_r by lia. lia.
      * intros _. rewrite Hlen.
        replace (Z.of_nat (length ds) + 1 - 1)
          with (Z.succ (Z.of_nat (length ds) - 1)) by lia.
        assert (Hlen1 : 0 <= Z.of_nat (length ds) - 1).
        { destruct ds; [congruence | simpl length; lia]. }
        rewrite Z.pow_succ_r by exact Hlen1.
        assert (0 < n / 10) by (apply Z.div_str_pos; lia).
        specialize (Hlow ltac:(assumption)). lia.
Qed.

Lemma to_digits_spec (n : Z) :
  0 <= n ->
  Forall is_digit (to_digits n)
  /\ to_digits n <> []
  /\ mathInt 10 (to_digits n) = n
  /\ n < 10 ^ Z.of_nat (length (to_digits n))
  /\ (0 < n -> 10 ^ (Z.of_nat (length (to_digits n)) - 1) <= n).
Proof.
  intros Hn. unfold to_digits.
  assert (Hf : 0 <= n < 2 ^ Z.of_nat (S (Z.to_nat (Z.log2 n)))).
  { split; [exact Hn |].
    rewrite Nat2Z.inj_succ, Z2Nat.id by apply Z.log2_nonneg.
    destruct (Z.eq_dec n 0) as [-> | Hnz]; [reflexivity |].
    apply Z.log2_spec. lia. }
  destruct (to_digits_aux_spec _ n [] Hf ltac:(discriminate)) as (ds & Heq & H).
  rewrite Heq, app_nil_r. exact H.
Qed.

(** The text of a natural number reads back as that number. *)
Lemma parseInt_decimal (n : Z) :
  0 <= n -> parseInt (string_of_digits (to_digits n)) = number_of_Z n.
Proof.
  intros Hn. destruct (to_digits_spec n Hn) as (Hd & Hne & Hv & _).
  rewrite (parseInt_digits _ Hd Hne), Hv. reflexivity.
Qed.

Lemma parseInt_minus_decimal (n : Z) :
  0 <= n -> parseInt (String "-" (string_of_digits (to_digits n))) = number_of_Z (- n).
Proof.
  intros Hn. destruct (to_digits_spec n Hn) as (Hd & Hne & Hv & _).
  rewrite (parseInt_minus_digits _ Hd Hne), Hv. reflexivity.
Qed.

Lemma number_eqb_eq (x y : number) : number_eqb x y = true -> x = y.
Proof.
  destruct x as [| a | a], y as [| b | b]; simpl; try discriminate; intros H.
  - reflexivity.
  - apply Bool.eqb_prop in H. congruence.
  - apply Z.eqb_eq in H. congruence.
Qed.

Lemma round_to_53_nonneg (m : Z) : 0 <= m -> 0 <= round_to_53 m.
Proof.
  intros Hm. unfold round_to_53.
  destruct (Z.leb_spec (Z.log2 m - 52) 0); [exact Hm |].
  apply Z.shiftl_nonneg.
  assert (0 <= Z.shiftr m (Z.log2 m - 52)) by (apply Z.shiftr_nonneg; exact Hm).
  repeat match goal with |- context [if ?b then _ else _] => destruct b end; lia.
Qed.

(** An integer below 2^53 in magnitude is its own number value. *)
Lemma number_of_Z_safe (z : Z) : Z.abs z < 2 ^ 53 -> number_of_Z z = Num z.
Proof.
  intros Hz. unfold number_of_Z, round_to_53.
  assert (He : Z.log2 (Z.abs z) - 52 <= 0).
  { destruct (Z.eq_dec (Z.abs z) 0) as [E | E]; [rewrite E; simpl; lia |].
    assert (Z.log2 (Z.abs z) < 53) by (apply Z.log2_lt_pow2; lia). lia. }
  destruct (Z.leb_spec (Z.log2 (Z.abs z) - 52) 0); [| lia].
  destruct (Z.leb_spec (2 ^ 1024) (Z.abs z)) as [Hbig | _].
  - assert (2 ^ 53 < 2 ^ 1024) by reflexivity. lia.
  - f_equal. rewrite Z.mul_comm. apply Z.abs_sgn.
Qed.

Lemma number_of_Z_pos (d x : Z) : number_of_Z d = Num x -> 0 < x -> 0 < d.
Proof.
  unfold number_of_Z. intros H Hx.
  pose proof (round_to_53_nonneg (Z.abs d) (Z.abs_nonneg d)) as Hr.
  destruct (2 ^ 1024 <=? round_to_53 (Z.abs d)); [discriminate |].
  injection H as H.
  destruct (Z.lt_trichotomy d 0) as [Hd | [Hd | Hd]]; [| | exact Hd].
  - rewrite (Z.sgn_neg d Hd) in H. lia.
  - subst d. simpl in H. lia.
Qed.

Lemma number_of_Z_opp (d x : Z) :
  number_of_Z d = Num x -> number_of_Z (- d) = Num (- x).
Proof.
  unfold number_of_Z. rewrite Z.abs_opp, Z.sgn_opp.
  destruct (2 ^ 1024 <=? round_to_53 (Z.abs d)); [discriminate |].
  intros H. injection H as H. f_equal. lia.
Qed.

Lemma pow10_lt_inv (a b x : Z) : 0 <= b -> 10 ^ a <= x -> x < 10 ^ b -> a < b.
Proof.
  intros Hb Ha Hx.
  destruct (Z.lt_ge_cases a b) as [H | H]; [exact H |].
  assert (10 ^ b <= 10 ^ a) by (apply Z.pow_le_mono_r; lia). lia.
Qed.

(** The decimal the search returns has the number value [x], and is not
    longer than [x]. *)
Lemma shortest_aux_spec (x n : Z) :
  number_of_Z x = Num x -> 0 < x -> x < 10 ^ n -> 0 <= n ->
  forall (fuel : nat) (j : Z),
    j < n ->
    number_of_Z (shortest_aux fuel j x) = Num x
    /\ shortest_aux fuel j x <= 10 ^ n.
Proof.
  intros Hrep Hpos Hx Hn.
  induction fuel as [| f IH]; intros j Hj; simpl.
  - split; [exact Hrep | lia].
  - set (p := 10 ^ j). set (lo := x / p * p). set (hi := lo + p).
    assert (Hlo : lo <= x /\ hi <= 10 ^ n).
    { destruct (Z.lt_ge_cases j 0) as [Hneg | Hnn].
      - assert (Hp : p = 0) by (apply Z.pow_neg_r; exact Hneg).
        unfold hi, lo. rewrite Hp, Z.mul_0_r. lia.
      - assert (Hp : 0 < p) by (apply Z.pow_pos_nonneg; lia).
        split.
        + unfold lo. rewrite Z.mul_comm. apply Z.mul_div_le. exact Hp.
        + assert (Hsplit : 10 ^ n = p * 10 ^ (n - j)).
          { unfold p. rewrite <- Z.pow_add_r by lia. f_equal. lia. }
          assert (x / p < 10 ^ (n - j)).
          { apply Z.div_lt_upper_bound; [exact Hp | lia]. }
          unfold hi, lo. rewrite Hsplit. nia. }
    destruct Hlo as [Hlo Hhi].
    destruct (number_eqb (number_of_Z lo) (Num x)) eqn:Elo;
      destruct (number_eqb (number_of_Z hi) (Num x)) eqn:Ehi; simpl.
    + destruct (x - lo <=? hi - x).
      * split; [apply number_eqb_eq; exact Elo | lia].
      * split; [apply number_eqb_eq; exact Ehi | exact Hhi].
    + split; [apply number_eqb_eq; exact Elo | lia].
    + split; [apply number_eqb_eq; exact Ehi | exact Hhi].
    + apply IH. lia.
Qed.

Lemma shortest_decimal_spec (x : Z) :
  number_of_Z x = Num x -> 0 < x -> x < 10 ^ 21 ->
  number_of_Z (shortest_decimal x) = Num x
  /\ 0 < shortest_decimal x < 10 ^ 21.
Proof.
  intros Hrep Hpos Hx.
  destruct (to_digits_spec x ltac:(lia)) as (_ & _ & _ & Hup & Hlow).
  specialize (Hlow Hpos).
  set (n := Z.of_nat (length (to_digits x))) in *.
  assert (Hn : 0 <= n) by (unfold n; lia).
  destruct (shortest_aux_spec x n Hrep Hpos Hup Hn (Z.to_nat n) (n - 1) ltac:(lia))
    as [Hval Hle].
  change (shortest_aux (Z.to_nat n) (n - 1) x) with (shortest_decimal x) in Hval, Hle.
  assert (Hn21 : n - 1 < 21) by (apply (pow10_lt_inv _ _ x); [lia | exact Hlow | exact Hx]).
  assert (H21 : 10 ^ n <= 10 ^ 21) by (apply Z.pow_le_mono_r; lia).
  split; [exact Hval |]. split.
  - exact (number_of_Z_pos _ _ Hval Hpos).
  - destruct (Z.eq_dec (shortest_decimal x) (10 ^ 21)) as [E | E]; [| lia].
    rewrite E in Hval.
    assert (Hc : number_of_Z (10 ^ 21) = Num (10 ^ 21)) by (vm_compute; reflexivity).
    rewrite Hc in Hval. injection Hval as Hval. lia.
Qed.

(** Below 10^21 the text of a positive number is a plain digit sequence,
    which denotes a decimal whose number value it is. *)
Lemma positive_toString_plain (x : Z) :
  number_of_Z x = Num x -> 0 < x -> x < 10 ^ 21 ->
  exists d,
    positive_toString x = string_of_digits (to_digits d)
    /\ 0 < d /\ number_of_Z d = Num x.
Proof.
  intros Hrep Hpos Hx.
  destruct (shortest_decimal_spec x Hrep Hpos Hx) as (Hval & Hd0 & Hd21).
  exists (shortest_decimal x). split; [| split; assumption].
  unfold positive_toString.
  destruct (to_digits_spec (shortest_decimal x) ltac:(lia)) as (_ & _ & _ & _ & Hlow).
  specialize (Hlow Hd0).
  assert (Hlen : Z.of_nat (length (to_digits (shortest_decimal x))) - 1 < 21)
    by (apply (pow10_lt_inv _ _ (shortest_decimal x)); [lia | exact Hlow | exact Hd21]).
  destruct (Z.leb_spec (Z.of_nat (length (to_digits (shortest_decimal x)))) 21);
    [reflexivity | lia].
Qed.

(** The round trip of handleEdit and handleSubmit on a number: an
    integer that binary64 holds, of magnitude below 10^21, written by
    toString and read by parseInt, comes back. *)
Lemma parseInt_toString (z : Z) :
  representable z = true -> Z.abs z < 10 ^ 21 ->
  parseInt (Number_toString (Num z)) = Num z.
Proof.
  intros Hrep Hz. apply number_eqb_eq in Hrep.
  unfold Number_toString.
  destruct (Z.eqb_spec z 0) as [-> | Hnz]; [reflexivity |].
  destruct (Z.ltb_spec z 0) as [Hneg | Hpos].
  - assert (Hrep' : number_of_Z (- z) = Num (- z)) by (apply number_of_Z_opp; exact Hrep).
    destruct (positive_toString_plain (- z) Hrep' ltac:(lia) ltac:(lia))
      as (d & Htxt & Hd & Hval).
    rewrite Htxt.
    change ("-" ++ string_of_digits (to_digits d))%string
      with (String "-" (string_of_digits (to_digits d))).
    rewrite parseInt_minus_decimal by lia.
    rewrite (number_of_Z_opp _ _ Hval). f_equal. lia.
  - destruct (positive_toString_plain z Hrep ltac:(lia) ltac:(lia))
      as (d & Htxt & Hd & Hval).
    rewrite Htxt, parseInt_decimal by lia. exact Hval.
Qed.

(** That text is never empty. *)
Lemma toString_truthy (z : Z) :
  representable z = true -> Z.abs z < 10 ^ 21 ->
  truthy (Number_toString (Num z)) = true.
Proof.
  intros Hrep Hz. apply number_eqb_eq in Hrep.
  unfold Number_toString.
  destruct (Z.eqb_spec z 0) as [-> | Hnz]; [reflexivity |].
  destruct (Z.ltb_spec z 0) as [Hneg | Hpos]; [reflexivity |].
  destruct (positive_toString_plain z Hrep ltac:(lia) ltac:(lia))
    as (d & Htxt & Hd & _).
  rewrite Htxt.
  destruct (to_digits_spec d ltac:(lia)) as (_ & Hne & _).
  destruct (to_digits d); [congruence | reflexivity].
Qed.

(** Every integer below 2^53 in magnitude is a number value. *)
Lemma representable_safe (z : Z) : Z.abs z < 2 ^ 53 -> representable z = true.
Proof.
  intros Hz. unfold representable. rewrite (number_of_Z_safe z Hz).
  simpl. apply Z.eqb_refl.
Qed.

(** parseInt gives NaN exactly when, after the white space, the sign and
    the radix prefix, the text does not start with a digit. *)
Lemma parseInt_NaN_iff (text : string) :
  parseInt text = NaN <->
  let '(_, s1) := read_sign (TrimString_start text) in
  let '(R, s2) := read_radix s1 in
  digits_prefix R s2 = [].
Proof.
  unfold parseInt.
  destruct (read_sign (TrimString_start text)) as [sign s1].
  destruct (read_radix s1) as [R s2].
  destruct (digits_prefix R s2) as [| d ds].
  - split; reflexivity.
  - split; [| discriminate].
    unfold number_of_Z.
    destruct (2 ^ 1024 <=? _); discriminate.
Qed.

End NumberText.

(** *** The isbn of a submission *)

Section IsbnProperties.

Variable API_BASE_URL : string.
Variable env : Env.


(** C10, as amended.  For every book record with a title and an author
    whose isbn is an integer of magnitude below 10^21, opening it for
    edit and submitting without touching the draft sends back the field
    values of the record: the isbn goes to its decimal text and parseInt
    reads that text back to the same number. *)
Theorem edit_then_submit_roundtrip (s : State) (b : Book.t) (z : Z) :
  Book.book_name b <> "" ->
  Book.author_name b <> "" ->
  Book.isbn b = JS.Num z ->
  JS.representable z = true ->
  Z.abs z < 10 ^ 21 ->
  resubmits_original API_BASE_URL env s b.
Proof.
  intros Hb Ha Hisbn Hrep Hz.
  unfold resubmits_original.
  set (s1 := final (dispatch API_BASE_URL env s (ClickEdit b))).
  assert (Hdraft : formData s1
                   = BookFormData.mk (Book.book_name b) (Book.author_name b)
                       (JS.Number_toString (Book.isbn b))) by reflexivity.
  assert (Hedit : editingBook s1 = Some b) by reflexivity.
  assert (Hdata : bookData (formData s1)
                  = [ ("book_name", JS.VString (Book.book_name b));
                      ("author_name", JS.VString (Book.author_name b));
                      ("isbn", JS.VNumber (Book.isbn b)) ]).
  { rewrite Hdraft. unfold bookData. simpl.
    rewrite Hisbn, (parseInt_toString z Hrep Hz). reflexivity. }
  split; [exact Hdata |].
  assert (Hv : valid_draft (formData s1) = true).
  { apply valid_draft_iff. rewrite Hdraft. simpl.
    repeat split; try assumption.
    apply truthy_iff. rewrite Hisbn. exact (toString_truthy z Hrep Hz). }
  destruct (exec_submit_valid API_BASE_URL env s1 Hv) as (_ & _ & Hf).
  change (dispatch API_BASE_URL env s1 SubmitForm) with (submit API_BASE_URL env s1).
  rewrite requests_fetches, Hf. cbn [map fst].
  eexists. apply f_equal2; [| reflexivity].
  unfold submit_request. rewrite Hedit, Hdata. reflexivity.
Qed.

End IsbnProperties.

(** Title and author are needed for anything to be sent: with the title
    missing nothing is sent, whatever the isbn text. *)
Lemma unparsed_isbn_needs_title :
  BookFormData.isbn (formData untitled_draft) <> ""
  /\ JS.parseInt (BookFormData.isbn (formData untitled_draft)) = JS.NaN
  /\ requests (trace (submit localhost (server_ok []) untitled_draft)) = []
  /\ ~ sends_unparsed_isbn localhost (server_ok []) untitled_draft.
Proof.
  split; [discriminate |]. split; [reflexivity |]. split; [reflexivity |].
  intros (H & _). vm_compute in H. discriminate H.
Qed.



(** The statement of C10 for every record fails: the text of 10^21 is
    in exponent form, of which parseInt reads the leading 1. *)
Lemma long_isbn_does_not_come_back :
  JS.representable (10 ^ 21) = true
  /\ JS.Number_toString (Book.isbn long_isbn) = "1e+21"
  /\ JS.parseInt "1e+21" = JS.Num 1
  /\ ~ resubmits_original localhost (server_ok []) initial long_isbn.
Proof.
  split; [vm_compute; reflexivity |].
  split; [vm_compute; reflexivity |]. split; [vm_compute; reflexivity |].
  intros [H _]. vm_compute in H. discriminate H.
Qed.

Lemma edit_then_submit_roundtrip_witness :
  Book.book_name dune <> ""
  /\ Book.author_name dune <> ""
  /\ Book.isbn dune = JS.Num 9780441013593
  /\ JS.representable 9780441013593 = true
  /\ Z.abs 9780441013593 < 10 ^ 21
  /\ resubmits_original localhost (server_ok [dune]) initial dune.
Proof.
  assert (Hb : Book.book_name dune <> "") by (simpl; discriminate).
  assert (Ha : Book.author_name dune <> "") by (simpl; discriminate).
  assert (Hz : Z.abs 9780441013593 < 10 ^ 21) by (vm_compute; reflexivity).
  split; [exact Hb |]. split; [exact Ha |]. split; [reflexivity |].
  split; [reflexivity |]. split; [exact Hz |].
  exact (edit_then_submit_roundtrip localhost (server_ok [dune]) initial dune
           9780441013593 Hb Ha eq_refl eq_refl Hz).
Defined.

(* ===================================================================== *)
(** ** Examples *)
(* ===================================================================== *)

(** *** The built-ins on sample inputs *)

Example parseInt_isbn13 : JS.parseInt "9780441013593" = JS.Num 9780441013593.
Proof. vm_compute. reflexivity. Qed.

Example parseInt_reads_prefix : JS.parseInt "12abc" = JS.Num 12.
Proof. vm_compute. reflexivity. Qed.

Example parseInt_stops_at_point : JS.parseInt "1.5" = JS.Num 1.
Proof. vm_compute. reflexivity. Qed.

Example parseInt_hex_prefix : JS.parseInt "0x1F" = JS.Num 31.
Proof. vm_compute. reflexivity. Qed.

Example parseInt_white_space_and_sign : JS.parseInt "  -42" = JS.Num (-42).
Proof. vm_compute. reflexivity. Qed.

Example parseInt_no_digits : JS.parseInt "abc" = JS.NaN.
Proof. vm_compute. reflexivity. Qed.

Example parseInt_rounds : JS.parseInt "9007199254740993" = JS.Num 9007199254740992.
Proof. vm_compute. reflexivity. Qed.

Example toString_isbn13 : JS.Number_toString (JS.Num 9780441013593) = "9780441013593".
Proof. vm_compute. reflexivity. Qed.

Example toString_negative : JS.Number_toString (JS.Num (-1200)) = "-1200".
Proof. vm_compute. reflexivity. Qed.

Example toString_shortest : JS.Number_toString (JS.Num (2 ^ 60)) = "1152921504606847000".
Proof. vm_compute. reflexivity. Qed.

Example toString_exponent :
  JS.Number_toString (JS.Num (2 ^ 70)) = "1.1805916207174113e+21".
Proof. vm_compute. reflexivity. Qed.

Example toString_rounds_up_to_power :
  JS.number_of_Z (10 ^ 23) = JS.Num 99999999999999991611392
  /\ JS.Number_toString (JS.Num 99999999999999991611392) = "1e+23".
Proof. split; vm_compute; reflexivity. Qed.

(** The rounding of [number_of_Z] agrees with the IEEE-754 binary64
    specification of the standard library on sample points: below and
    above 2^53, at ties, at powers of ten and at the overflow threshold. *)
Example number_of_Z_agrees_with_ieee :
  forallb (fun z => JS.number_eqb (JS.number_of_Z z) (JS.number_of_Z_ieee z))
    [ 0; 1; -1; 12; 9780441013593; 2 ^ 53 - 1; 2 ^ 53; 2 ^ 53 + 1; 2 ^ 53 + 2;
      2 ^ 53 + 3; - (2 ^ 53 + 3); 2 ^ 54 + 2; 2 ^ 54 + 6; 2 ^ 60 + 1; 10 ^ 21;
      10 ^ 22; 10 ^ 23; - (10 ^ 23); 10 ^ 30 + 7; 3 * 10 ^ 100;
      2 ^ 1024 - 2 ^ 970 - 1; 2 ^ 1024 - 2 ^ 970; 2 ^ 1024; - (2 ^ 1024); 10 ^ 400 ]
  = true.
Proof. vm_compute. reflexivity. Qed.

(** The same on every integer of three windows: across 2^53, where
    rounding starts, across 2^54, where the spacing doubles, and around
    10^21. *)
Example number_of_Z_agrees_with_ieee_windows :
  forallb (fun base =>
    forallb (fun i =>
      let z := base + Z.of_nat i in
      JS.number_eqb (JS.number_of_Z z) (JS.number_of_Z_ieee z)
      && JS.number_eqb (JS.number_of_Z (- z)) (JS.number_of_Z_ieee (- z)))
      (seq 0 400))
    [ 2 ^ 53 - 100; 2 ^ 54 - 100; 10 ^ 21 - 200000 ]
  = true.
Proof. vm_compute. reflexivity. Qed.

(** *** The examples of the specification *)

(** A new draft, nothing being edited: a POST to /books carrying the
    draft with its isbn as a number; on success the form closes and the
    list is the one the server returns. *)
Example create_dune :
  let run := submit localhost (server_ok [dune]) creating_dune in
  map (fun x => (method (fst x), url (fst x))) (fetches (trace run))
  = [ (POST, "http://localhost:8000/books"); (GET, "http://localhost:8000/books") ]
  /\ hd_error (map body (requests (trace run)))
     = Some (Some (JS.JSON_stringify
                     [ ("book_name", JS.VString "Dune");
                       ("author_name", JS.VString "Herbert");
                       ("isbn", JS.VNumber (JS.Num 9780441013593)) ]))
  /\ form_state_of (final run) = closed
  /\ books (final run) = [dune].
Proof. vm_compute. repeat split; reflexivity. Qed.

(** Editing record 3 with the author changed: a PUT to /books/3 with the
    whole payload, and no POST. *)
Example update_dune :
  let run := submit localhost (server_ok [dune]) editing_dune in
  map (fun x => (method (fst x), url (fst x))) (fetches (trace run))
  = [ (PUT, "http://localhost:8000/books/3"); (GET, "http://localhost:8000/books") ]
  /\ hd_error (map body (requests (trace run)))
     = Some (Some (JS.JSON_stringify
                     [ ("book_name", JS.VString "Dune");
                       ("author_name", JS.VString "Frank Herbert");
                       ("isbn", JS.VNumber (JS.Num 9780441013593)) ])).
Proof. vm_compute. repeat split; reflexivity. Qed.

(** A fetch answered with status 500 at startup: the list stays empty,
    the error is set, and the handler ends normally. *)
Example startup_500 :
  let run := dispatch localhost server_500 (initial) Mount in
  result run = Normal tt
  /\ books (final run) = []
  /\ error (final run) = "Failed to load books. Make sure API is running."
  /\ loading (final run) = false.
Proof. vm_compute. repeat split; reflexivity. Qed.

(** Declining the dialog: the only event is the dialog itself. *)
Example delete_declined :
  dispatch localhost user_declines editing_dune (ClickDelete dune)
  = {| result := Normal tt; final := editing_dune;
       trace := [EvConfirm confirm_message false] |}.
Proof. vm_compute. reflexivity. Qed.

(* ===================================================================== *)
(** ** Further properties of the component *)
(* ===================================================================== *)

(** *** The busy flag *)

Section BusyFlag.

Variable API_BASE_URL : string.
Variable env : Env.

Lemma in_flight_requests {A} (p : Prog A) (s : State) (sent : list Request) :
  map fst (in_flight env p s sent) = requests (trace (exec env p s sent)).
Proof.
  revert s sent.
  induction p as [a | e | a k IH | m k IH | req k IH]; intros s sent; simpl;
    try reflexivity; try apply IH.
  f_equal. apply IH.
Qed.

Ltac draft_cases s :=
  destruct (JS.truthy (BookFormData.book_name (formData s)));
  destruct (JS.truthy (BookFormData.author_name (formData s)));
  destruct (JS.truthy (BookFormData.isbn (formData s))).

(** While a request is in flight the store is the one the handler
    started from, with [loading] set. *)
Lemma in_flight_dispatch (s : State) (ev : ui_event) :
  in_flight env (handler API_BASE_URL s ev) s []
  = map (fun req => (req, busy s)) (requests (trace (dispatch API_BASE_URL env s ev))).
Proof.
  unfold dispatch.
  destruct ev; simpl handler; try reflexivity.
  - unfold fetchBooks. run_handler; reflexivity.
  - unfold handleSubmit, fetchBooks. draft_cases s; run_handler; reflexivity.
  - unfold handleDelete, fetchBooks. run_handler; reflexivity.
Qed.

(** What a handler leaves in [loading]: false when it sent a request,
    and otherwise what it found. *)
Lemma dispatch_loading (s : State) (ev : ui_event) :
  loading (final (dispatch API_BASE_URL env s ev))
  = match requests (trace (dispatch API_BASE_URL env s ev)) with
    | [] => loading s
    | _ :: _ => false
    end.
Proof.
  unfold dispatch.
  destruct ev; simpl handler; try reflexivity.
  - unfold fetchBooks. run_handler; reflexivity.
  - unfold handleSubmit, fetchBooks. draft_cases s; run_handler; reflexivity.
  - unfold handleDelete, fetchBooks. run_handler; reflexivity.
Qed.

(** In the run of a handler, whatever comes before a request writes
    nothing. *)
Lemma dispatch_quiet (s : State) (ev : ui_event) :
  quiet_before_requests (trace (dispatch API_BASE_URL env s ev)) = true.
Proof.
  unfold dispatch.
  destruct ev; simpl handler; try reflexivity.
  - unfold fetchBooks. run_handler; reflexivity.
  - unfold handleSubmit, fetchBooks. draft_cases s; run_handler; reflexivity.
  - unfold handleDelete, fetchBooks. run_handler; reflexivity.
Qed.

End BusyFlag.

Lemma has_fetch_app (pre post : list event) (req : Request) (res : FetchResult) :
  has_fetch (pre ++ EvFetch req res :: post) = true.
Proof.
  induction pre as [| e pre IH]; [reflexivity |].
  destruct e; simpl; try exact IH. reflexivity.
Qed.

Lemma quiet_before_requests_spec (tr pre post : list event) (req : Request)
  (res : FetchResult) :
  quiet_before_requests tr = true ->
  tr = (pre ++ EvFetch req res :: post)%list ->
  forallb writes_nothing pre = true.
Proof.
  intros Hq ->. induction pre as [| e pre IH]; [reflexivity |].
  simpl in Hq. rewrite has_fetch_app in Hq.
  apply andb_true_iff in Hq as [He Hq].
  simpl. rewrite He. exact (IH Hq).
Qed.

(** In every state the component reaches, [loading] is false. *)
Lemma reachable_loading (API_BASE_URL : string) (s : State) :
  reachable API_BASE_URL s -> loading s = false.
Proof.
  induction 1 as [| s env ev Hr IH Hen]; [reflexivity |].
  rewrite dispatch_loading.
  destruct (requests (trace (dispatch API_BASE_URL env s ev)));
    [exact IH | reflexivity].
Qed.

Section BusyFlagProperties.

Variable API_BASE_URL : string.


(** X2. A handler writes to the store only once its answers are there:
    in the run of any handler, before each request the handler has
    called no setter but setLoading(true); setBooks, setError, the form
    setters and setLoading(false) all come after the last request of the
    run. *)
Theorem writes_follow_answers (env : Env) (s : State) (ev : ui_event)
  (pre post : list event) (req : Request) (res : FetchResult) :
  trace (dispatch API_BASE_URL env s ev) = (pre ++ EvFetch req res :: post)%list ->
  forallb writes_nothing pre = true.
Proof.
  apply quiet_before_requests_spec. apply dispatch_quiet.
Qed.

(** X4. The list area shows the loading placeholder exactly while a
    request is in flight over an empty list: with no book in the list it
    is the placeholder at every request, and in every idle state it is
    the empty panel when there is no book and the grid of cards
    otherwise. *)
Theorem loading_placeholder (env : Env) (s : State) (ev : ui_event) :
  Forall (fun x => books s = [] -> list_area API_BASE_URL (snd x) = loading_panel)
    (in_flight env (handler API_BASE_URL s ev) s [])
  /\ (reachable API_BASE_URL s ->
      list_area API_BASE_URL s
      = match books s with
        | [] => empty_panel
        | _ :: _ =>
            element "div"
              [className "grid grid-cols-1 md:grid-cols-2 lg:grid-cols-3 gap-6"]
              (map (card API_BASE_URL) (books s))
        end).
Proof.
  split.
  - rewrite in_flight_dispatch.
    apply Forall_forall. intros x Hx. apply in_map_iff in Hx as (req & <- & _).
    intros Hb. unfold list_area, busy. cbn [snd loading books]. rewrite Hb. reflexivity.
  - intros Hr. unfold list_area.
    rewrite (reachable_loading API_BASE_URL s Hr). destruct (books s); reflexivity.
Qed.

End BusyFlagProperties.

(** *** What the handlers touch, send and log *)

Section Frames.

Variable API_BASE_URL : string.
Variable env : Env.

Lemma append_assoc (a b c : string) : ((a ++ b) ++ c = a ++ b ++ c)%string.
Proof. induction a as [| x a IH]; simpl; [reflexivity | rewrite IH; reflexivity]. Qed.

Lemma prefix_append (a b : string) : String.prefix a (a ++ b) = true.
Proof.
  induction a as [| x a IH]; simpl; [destruct b; reflexivity |].
  destruct (ascii_dec x x) as [_ | Hx]; [exact IH | congruence].
Qed.

Lemma prefix_refl (a : string) : String.prefix a a = true.
Proof.
  induction a as [| x a IH]; simpl; [reflexivity |].
  destruct (ascii_dec x x) as [_ | Hx]; [exact IH | congruence].
Qed.

Lemma books_prefix_item (x : string) :
  String.prefix (API_BASE_URL ++ "/books") (API_BASE_URL ++ "/books/" ++ x) = true.
Proof.
  change (API_BASE_URL ++ "/books/" ++ x)%string
    with (API_BASE_URL ++ "/books" ++ "/" ++ x)%string.
  rewrite <- append_assoc. apply prefix_append.
Qed.

(** The requests of a run: at most one mutation, then at most one GET of
    the collection. *)
Lemma dispatch_requests (s : State) (ev : ui_event) :
  exists m g,
    requests (trace (dispatch API_BASE_URL env s ev)) = (m ++ g)%list
    /\ (m = []
        \/ (ev = SubmitForm
            /\ m = [submit_request API_BASE_URL (formData s) (editingBook s)])
        \/ (exists book, ev = ClickDelete book
            /\ m = [delete_request API_BASE_URL (Book.id book)]))
    /\ (g = [] \/ g = [books_request API_BASE_URL]).
Proof.
  destruct ev; unfold dispatch; simpl handler;
    try (exists [], []; repeat split; auto; fail).
  - exists [], [books_request API_BASE_URL].
    destruct (exec_fetchBooks API_BASE_URL env s []) as (_ & _ & Hf).
    rewrite requests_fetches, Hf. auto.
  - fold (submit API_BASE_URL env s).
    destruct (valid_draft (formData s)) eqn:Hv.
    + destruct (exec_submit_valid API_BASE_URL env s Hv) as (_ & _ & Hf).
      rewrite requests_fetches, Hf.
      exists [submit_request API_BASE_URL (formData s) (editingBook s)].
      destruct (failed _); [exists [] | exists [books_request API_BASE_URL]];
        (split; [reflexivity | split; [right; left; split; reflexivity | auto]]).
    + rewrite (exec_submit_invalid API_BASE_URL env s Hv).
      exists [], []. auto.
  - destruct (confirm env confirm_message) eqn:Hc.
    + destruct (exec_delete_confirmed API_BASE_URL env s (Book.id book) Hc)
        as (_ & _ & Hf).
      rewrite requests_fetches, Hf.
      exists [delete_request API_BASE_URL (Book.id book)].
      destruct (failed _); [exists [] | exists [books_request API_BASE_URL]];
        (split; [reflexivity
                | split; [right; right; exists book; split; reflexivity | auto]]).
    + rewrite (exec_delete_declined API_BASE_URL env s (Book.id book) Hc).
      exists [], []. auto.
Qed.

(** X5. Opening the form, typing, selecting a record and cancelling are
    local: they send no request, open no dialog, log nothing, and leave
    the book list, the loading flag and the error message as they were.
    In particular an error message stays in place while the user corrects
    the draft or cancels. *)
Theorem local_events_frame (s : State) (ev : ui_event) :
  is_local ev = true ->
  let run := dispatch API_BASE_URL env s ev in
  result run = Normal tt
  /\ requests (trace run) = []
  /\ confirms (trace run) = []
  /\ logged (trace run) = []
  /\ books (final run) = books s
  /\ loading (final run) = loading s
  /\ error (final run) = error s.
Proof.
  intros H run. unfold run.
  destruct ev; try discriminate H; repeat split; reflexivity.
Qed.

(** X6. What goes on the wire: a handler sends at most two requests and
    at most one mutation; every request is addressed under
    API_BASE_URL/books; the only GET is the one for the whole collection;
    only a submission carries a body. *)
Theorem network_discipline (s : State) (ev : ui_event) :
  let rs := requests (trace (dispatch API_BASE_URL env s ev)) in
  (length rs <= 2)%nat
  /\ (length (filter is_mutation rs) <= 1)%nat
  /\ Forall (fun r => String.prefix (API_BASE_URL ++ "/books") (url r) = true) rs
  /\ Forall (fun r => method r = GET -> r = books_request API_BASE_URL) rs
  /\ Forall (fun r => body r <> None -> ev = SubmitForm) rs.
Proof.
  intros rs. unfold rs.
  destruct (dispatch_requests s ev) as (m & g & -> & Hm & Hg).
  assert (Hgp : String.prefix (API_BASE_URL ++ "/books")
                  (url (books_request API_BASE_URL)) = true)
    by apply prefix_refl.
  assert (Hsp : String.prefix (API_BASE_URL ++ "/books")
                  (url (submit_request API_BASE_URL (formData s) (editingBook s))) = true).
  { unfold submit_request. destruct (editingBook s); simpl;
      [apply books_prefix_item | apply prefix_refl]. }
  assert (Hsm : method (submit_request API_BASE_URL (formData s) (editingBook s)) <> GET).
  { unfold submit_request. destruct (editingBook s); discriminate. }
  assert (Hsf : is_mutation (submit_request API_BASE_URL (formData s) (editingBook s))
                = true).
  { unfold submit_request, is_mutation. destruct (editingBook s); reflexivity. }
  assert (Lm : (length m <= 1)%nat).
  { destruct Hm as [-> | [[_ ->] | (book & _ & ->)]]; simpl; lia. }
  assert (Lg : (length g <= 1)%nat /\ filter is_mutation g = []).
  { destruct Hg as [-> | ->]; split; simpl; solve [lia | reflexivity]. }
  split; [rewrite length_app; lia |].
  split.
  { rewrite filter_app, length_app, (proj2 Lg).
    pose proof (filter_length_le is_mutation m). simpl. lia. }
  split; [| split]; apply Forall_app; split.
  - destruct Hm as [-> | [[_ ->] | (book & _ & ->)]]; repeat constructor.
    + exact Hsp.
    + apply books_prefix_item.
  - destruct Hg as [-> | ->]; repeat constructor. exact Hgp.
  - destruct Hm as [-> | [[_ ->] | (book & _ & ->)]]; repeat constructor.
    + intros H. contradiction.
    + intros H. discriminate H.
  - destruct Hg as [-> | ->]; repeat constructor.
  - destruct Hm as [-> | [[-> ->] | (book & _ & ->)]]; repeat constructor.
    intros H. contradiction H. reflexivity.
  - destruct Hg as [-> | ->]; repeat constructor.
    intros H. contradiction H. reflexivity.
Qed.

End Frames.

Section Outcomes.

Variable API_BASE_URL : string.
Variable env : Env.

(** X7. Failures reach the console with their cause.  A run of the
    loader logs the rejection, the Error it throws on a status outside
    200-299, or what response.json() rejected with, and nothing when the
    load succeeds.  A run of a mutation handler that gets to its request
    logs the cause of the failed mutation, or else what the reload logs;
    a handler logs at most one value. *)
Theorem failures_are_logged (s : State) :
  (forall sent,
      logged (trace (exec env (fetchBooks API_BASE_URL) s sent))
      = match load_cause (fetch env sent (books_request API_BASE_URL)) with
        | Some e => [e]
        | None => []
        end)
  /\ (forall m,
         attempted env s m = true ->
         let req := mutation_request API_BASE_URL s m in
         logged (trace (mutation_run API_BASE_URL env s m))
         = match cause (failure_message m) (fetch env [] req) with
           | Some e => [e]
           | None =>
               match load_cause (fetch env [req] (books_request API_BASE_URL)) with
               | Some e => [e]
               | None => []
               end
           end).
Proof.
  split.
  - intros sent. unfold fetchBooks, load_cause. run_handler; reflexivity.
  - intros [| id] Ha; cbn [attempted mutation_run mutation_request failure_message] in *.
    + apply valid_draft_inv in Ha as (Hb & Hn & Hi).
      unfold submit, handleSubmit, fetchBooks, cause, load_cause.
      rewrite Hb, Hn, Hi. run_handler; reflexivity.
    + unfold handleDelete, fetchBooks, cause, load_cause, confirm_message in *.
      cbv zeta. simpl. rewrite Ha. run_handler; reflexivity.
Qed.

(** X8. A mutation that succeeds is reported as a success even when the
    reload after it fails: the form is reset as after any successful
    submission, the error message ends up empty, and the book list is
    still the one from before the mutation. *)
Theorem saved_but_not_reloaded (s : State) (m : mutation) (e : exn) :
  attempted env s m = true ->
  let req := mutation_request API_BASE_URL s m in
  failed (fetch env [] req) = false ->
  load_cause (fetch env [req] (books_request API_BASE_URL)) = Some e ->
  let s' := final (mutation_run API_BASE_URL env s m) in
  error s' = "" /\ books s' = books s /\ loading s' = false
  /\ logged (trace (mutation_run API_BASE_URL env s m)) = [e].
Proof.
  intros Ha req Hok Hload s'.
  destruct (exec_mutation API_BASE_URL env s m Ha) as (_ & Hfin & _).
  fold req in Hfin. rewrite Hok in Hfin.
  assert (Hbooks : books (after_load s (fetch env [req] (books_request API_BASE_URL)))
                   = books s).
  { unfold load_cause in Hload. unfold after_load.
    destruct (fetch env [req] (books_request API_BASE_URL)) as [e' | r];
      [reflexivity |].
    destruct (ok r); [| reflexivity].
    destruct (json r); [reflexivity | discriminate Hload]. }
  assert (Hlog : logged (trace (mutation_run API_BASE_URL env s m)) = [e]).
  { clear Hfin Hbooks s'.
    assert (Hc : cause (failure_message m) (fetch env [] req) = None).
    { unfold failed in Hok. unfold cause.
      destruct (fetch env [] req) as [e' | r]; [discriminate Hok |].
      destruct (ok r); [reflexivity | discriminate Hok]. }
    destruct m as [| id]; cbn [attempted mutation_run mutation_request failure_message] in *.
    - apply valid_draft_inv in Ha as (Hb & Hn & Hi).
      unfold cause in Hc. unfold load_cause in Hload. subst req.
      unfold submit, handleSubmit, fetchBooks.
      rewrite Hb, Hn, Hi. run_handler; congruence.
    - unfold cause in Hc. unfold load_cause in Hload. subst req.
      unfold handleDelete, fetchBooks, confirm_message in *.
      simpl. rewrite Ha. run_handler; congruence. }
  unfold s'. rewrite Hfin.
  destruct m; simpl; rewrite Hbooks; repeat split; try reflexivity; exact Hlog.
Qed.

(** What an event does to the list is what the answers of its run do
    to it, one after the other. *)
Lemma dispatch_books_received (s : State) (ev : ui_event) :
  books (final (dispatch API_BASE_URL env s ev))
  = fold_left received (fetches (trace (dispatch API_BASE_URL env s ev))) (books s).
Proof.
  unfold dispatch.
  destruct ev; simpl handler; try reflexivity.
  - unfold fetchBooks, books_request. run_handler; reflexivity.
  - unfold handleSubmit, fetchBooks, books_request, submit_request.
    destruct (JS.truthy (BookFormData.book_name (formData s)));
      destruct (JS.truthy (BookFormData.author_name (formData s)));
      destruct (JS.truthy (BookFormData.isbn (formData s)));
      destruct (editingBook s); run_handler; reflexivity.
  - unfold handleDelete, fetchBooks, books_request, delete_request.
    run_handler; reflexivity.
Qed.

(** X10. Loading and deleting never touch the form: whatever the server
    and the user answer, the mount effect and the delete handler leave
    the open flag, the record being edited and the draft as they were;
    a record that is deleted while it is being edited stays in the form. *)
Theorem loader_and_delete_keep_form (s : State) :
  (let s' := final (dispatch API_BASE_URL env s Mount) in
   isFormOpen s' = isFormOpen s /\ editingBook s' = editingBook s
   /\ formData s' = formData s)
  /\ (forall book,
         let s' := final (dispatch API_BASE_URL env s (ClickDelete book)) in
         isFormOpen s' = isFormOpen s /\ editingBook s' = editingBook s
         /\ formData s' = formData s).
Proof.
  split.
  - unfold dispatch; simpl handler.
    destruct (exec_fetchBooks API_BASE_URL env s []) as (_ & Hfin & _).
    rewrite Hfin. unfold after_load.
    destruct (fetch env [] (books_request API_BASE_URL)) as [e | r];
      [repeat split; reflexivity |].
    destruct (ok r); [| repeat split; reflexivity].
    destruct (json r); repeat split; reflexivity.
  - intros book. unfold dispatch; simpl handler.
    destruct (confirm env confirm_message) eqn:Hc.
    + destruct (exec_delete_confirmed API_BASE_URL env s (Book.id book) Hc)
        as (_ & Hfin & _).
      rewrite Hfin. destruct (failed _); repeat split; reflexivity.
    + rewrite (exec_delete_declined API_BASE_URL env s (Book.id book) Hc).
      repeat split; reflexivity.
Qed.

(** X12. Typing composes field by field: changes to two different fields
    give the same draft in either order, and of two changes to the same
    field the later one stands. *)
Theorem typing_commutes (s : State) (a b : string) :
  let after ev s0 := final (dispatch API_BASE_URL env s0 ev) in
  after (ChangeAuthorName b) (after (ChangeBookName a) s)
  = after (ChangeBookName a) (after (ChangeAuthorName b) s)
  /\ after (ChangeIsbn b) (after (ChangeBookName a) s)
     = after (ChangeBookName a) (after (ChangeIsbn b) s)
  /\ after (ChangeIsbn b) (after (ChangeAuthorName a) s)
     = after (ChangeAuthorName a) (after (ChangeIsbn b) s)
  /\ after (ChangeBookName b) (after (ChangeBookName a) s)
     = after (ChangeBookName b) s
  /\ after (ChangeAuthorName b) (after (ChangeAuthorName a) s)
     = after (ChangeAuthorName b) s
  /\ after (ChangeIsbn b) (after (ChangeIsbn a) s) = after (ChangeIsbn b) s.
Proof. repeat split; reflexivity. Qed.

End Outcomes.

(** X9. The list is never edited locally.  After any sequence of
    events, the book list is the collection carried by the most recent
    successful answer to a GET of the collection among the answers the
    component received (a status in 200-299 and a body that is JSON),
    and it is the list the sequence started from when there was none:
    answers to mutations, failed loads and local events leave it as it
    is. *)
Theorem books_are_last_loaded (API_BASE_URL : string) (s : State)
  (hs : list (Env * ui_event)) :
  books (run_from API_BASE_URL s hs)
  = fold_left received (answers API_BASE_URL s hs) (books s).
Proof.
  revert s. induction hs as [| [env ev] hs IH]; intros s; [reflexivity |].
  simpl. rewrite fold_left_app, IH, dispatch_books_received. reflexivity.
Qed.

(** X11. Opening a record for edit and cancelling is a round trip: from
    any state the component reaches with the form closed, it leads back
    to that very state. *)
Theorem edit_cancel_roundtrip (API_BASE_URL : string) (env1 env2 : Env)
  (s : State) (book : Book.t) :
  reachable API_BASE_URL s ->
  isFormOpen s = false ->
  final (dispatch API_BASE_URL env2
           (final (dispatch API_BASE_URL env1 s (ClickEdit book))) ClickCancel)
  = s.
Proof.
  intros Hr Hc.
  destruct (closed_form_is_blank API_BASE_URL s Hr Hc) as [Hd He].
  destruct s as [bs op eb fd ld er]. simpl in *. subst. reflexivity.
Qed.

(** *** The page and its handlers *)

Section PageProperties.

Variable API_BASE_URL : string.

Lemma bindings_cards (bs : list Book.t) :
  flat_map bindings (map (card API_BASE_URL) bs)
  = flat_map (fun b => [Click (handleEdit b);
                        Click (handleDelete API_BASE_URL (Book.id b))]) bs.
Proof.
  induction bs as [| b bs IH]; [reflexivity |].
  simpl. rewrite IH. reflexivity.
Qed.

(** The handlers bound in the page, in document order. *)
Lemma bindings_render (s : State) :
  bindings (render API_BASE_URL s)
  = ([Click onClick_AddBook]
     ++ (if isFormOpen s then
           [ Click resetForm;
             Submit (handleSubmit API_BASE_URL (formData s) (editingBook s));
             Change (onChange_book_name (formData s));
             Change (onChange_author_name (formData s));
             Change (onChange_isbn (formData s));
             Click resetForm ]
         else [])
     ++ flat_map (fun b => [Click (handleEdit b);
                            Click (handleDelete API_BASE_URL (Book.id b))])
          (books s))%list.
Proof.
  unfold render, banner, modal, list_area.
  destruct (JS.truthy (error s)); destruct (isFormOpen s); destruct (loading s);
    destruct (books s) as [| b bs]; try reflexivity;
    cbn -[card handleSubmit handleEdit handleDelete resetForm onClick_AddBook
          onChange_book_name onChange_author_name onChange_isbn];
    rewrite ?app_nil_r, bindings_cards; reflexivity.
Qed.

(** X13. The page offers exactly the events the component handles: every
    event that is enabled in a state (the mount effect apart) has its
    handler bound in the page rendered from that state, and every
    handler bound in the page is the handler of an enabled event: Add
    Book always; the two cancel buttons, the submission and the three
    inputs while the form is open; and an edit and a delete button for
    each book of the list. *)
Theorem rendered_handlers (s : State) :
  (forall ev, ev <> Mount -> enabled s ev ->
     exists b, In b (bindings (render API_BASE_URL s)) /\ fires API_BASE_URL s b ev)
  /\ (forall b, In b (bindings (render API_BASE_URL s)) ->
        exists ev, ev <> Mount /\ enabled s ev /\ fires API_BASE_URL s b ev).
Proof.
  rewrite bindings_render. split.
  - intros ev Hm Hen.
    destruct ev; simpl in Hen; try congruence.
    + exists (Click onClick_AddBook). rewrite !in_app_iff.
      split; [left; left; reflexivity | reflexivity].
    + exists (Click resetForm). rewrite !in_app_iff, Hen.
      split; [right; left; left; reflexivity | reflexivity].
    + exists (Click resetForm). rewrite !in_app_iff, Hen.
      split; [right; left; left; reflexivity | reflexivity].
    + exists (Change (onChange_book_name (formData s))). rewrite !in_app_iff, Hen.
      split; [right; left; simpl; tauto | reflexivity].
    + exists (Change (onChange_author_name (formData s))). rewrite !in_app_iff, Hen.
      split; [right; left; simpl; tauto | reflexivity].
    + exists (Change (onChange_isbn (formData s))). rewrite !in_app_iff, Hen.
      split; [right; left; simpl; tauto | reflexivity].
    + exists (Submit (handleSubmit API_BASE_URL (formData s) (editingBook s))).
      rewrite !in_app_iff, Hen.
      split; [right; left; simpl; tauto | reflexivity].
    + exists (Click (handleEdit book)). rewrite !in_app_iff.
      split; [| reflexivity].
      right; right. apply in_flat_map. exists book.
      split; [exact Hen | left; reflexivity].
    + exists (Click (handleDelete API_BASE_URL (Book.id book))). rewrite !in_app_iff.
      split; [| reflexivity].
      right; right. apply in_flat_map. exists book.
      split; [exact Hen | right; left; reflexivity].
  - intros b Hb. rewrite !in_app_iff in Hb.
    destruct Hb as [[<- | []] | [Hb | Hb]].
    + exists ClickAddBook. repeat split. discriminate.
    + destruct (isFormOpen s) eqn:Ho; [| contradiction].
      destruct Hb as [<- | [<- | [<- | [<- | [<- | [<- | []]]]]]].
      * exists ClickClose. repeat split; [discriminate | exact Ho].
      * exists SubmitForm. repeat split; [discriminate | exact Ho].
      * exists (ChangeBookName ""). repeat split; [discriminate | exact Ho].
      * exists (ChangeAuthorName ""). repeat split; [discriminate | exact Ho].
      * exists (ChangeIsbn ""). repeat split; [discriminate | exact Ho].
      * exists ClickCancel. repeat split; [discriminate | exact Ho].
    + apply in_flat_map in Hb as (book & Hin & [<- | [<- | []]]).
      * exists (ClickEdit book). repeat split; [discriminate | exact Hin].
      * exists (ClickDelete book). repeat split; [discriminate | exact Hin].
Qed.

End PageProperties.

(** *** The isbn as text and as number, continued *)

Section NumberTextMore.

Import JS.

Lemma round_to_53_large (m : Z) : 2 ^ 53 <= m -> 2 ^ 53 <= round_to_53 m.
Proof.
  intros Hm. unfold round_to_53.
  assert (Hlog : 53 <= Z.log2 m) by (apply Z.log2_le_pow2; lia).
  destruct (Z.leb_spec (Z.log2 m - 52) 0) as [H | H]; [lia |].
  set (e := Z.log2 m - 52) in *.
  assert (He : 0 <= e) by lia.
  assert (Hq : 2 ^ 52 <= Z.shiftr m e).
  { rewrite Z.shiftr_div_pow2 by exact He.
    apply Z.div_le_lower_bound; [apply Z.pow_pos_nonneg; lia |].
    rewrite Z.mul_comm, <- Z.pow_add_r by lia.
    replace (52 + e) with (Z.log2 m) by (unfold e; lia).
    apply Z.log2_spec. lia. }
  rewrite Z.shiftl_mul_pow2 by exact He.
  assert (Hpe : 2 <= 2 ^ e).
  { replace 2 with (2 ^ 1) at 1 by reflexivity. apply Z.pow_le_mono_r; lia. }
  assert (Hq' : 2 ^ 52 <=
                (if m - Z.shiftl (Z.shiftr m e) e <? Z.shiftl 1 (e - 1)
                 then Z.shiftr m e
                 else if Z.shiftl 1 (e - 1) <? m - Z.shiftl (Z.shiftr m e) e
                      then Z.shiftr m e + 1
                      else if Z.even (Z.shiftr m e) then Z.shiftr m e
                           else Z.shiftr m e + 1)).
  { repeat match goal with |- context [if ?b then _ else _] => destruct b end; lia. }
  change (2 ^ 53) with (2 ^ 52 * 2). nia.
Qed.

(** Below 2^53 a number value comes from one integer only: itself. *)
Lemma number_of_Z_safe_inv (d x : Z) :
  number_of_Z d = Num x -> Z.abs x < 2 ^ 53 -> d = x.
Proof.
  intros H Hx.
  destruct (Z.lt_ge_cases (Z.abs d) (2 ^ 53)) as [Hd | Hd].
  - rewrite (number_of_Z_safe d Hd) in H. congruence.
  - exfalso. unfold number_of_Z in H.
    pose proof (round_to_53_large (Z.abs d) Hd) as Hr.
    destruct (2 ^ 1024 <=? round_to_53 (Z.abs d)); [discriminate |].
    injection H as H.
    destruct (Z.lt_trichotomy d 0) as [Hn | [Hz | Hp]].
    + rewrite (Z.sgn_neg d Hn) in H. lia.
    + subst d. simpl in Hd. lia.
    + rewrite (Z.sgn_pos d Hp) in H. lia.
Qed.

(** The text of a natural number below 2^53 is its decimal numeral. *)
Lemma Number_toString_safe (n : Z) :
  0 <= n < 2 ^ 53 -> Number_toString (Num n) = numeral n.
Proof.
  intros Hn. unfold Number_toString, numeral.
  destruct (Z.eqb_spec n 0) as [-> | Hnz]; [reflexivity |].
  destruct (Z.ltb_spec n 0) as [Hneg | _]; [lia |].
  assert (Hrep : number_of_Z n = Num n) by (apply number_of_Z_safe; lia).
  assert (H21 : 2 ^ 53 < 10 ^ 21) by reflexivity.
  destruct (positive_toString_plain n Hrep ltac:(lia) ltac:(lia))
    as (d & Htxt & _ & Hval).
  rewrite Htxt. f_equal. f_equal.
  apply (number_of_Z_safe_inv d n Hval). lia.
Qed.

Lemma TrimString_start_app (w t : string) :
  TrimString_start w = "" ->
  TrimString_start (w ++ t) = TrimString_start t.
Proof.
  induction w as [| c w IH]; simpl; [reflexivity |].
  destruct (is_white_space c); [exact IH | discriminate].
Qed.

Lemma digits_prefix_stop (ds : list Z) (c : ascii) (rest : string) :
  Forall is_digit ds -> radix_digit 10 c = None ->
  digits_prefix 10 (string_of_digits ds ++ String c rest) = ds.
Proof.
  intros Hds Hc. induction Hds as [| d ds Hd _ IH]; simpl.
  - rewrite Hc. reflexivity.
  - rewrite (radix_digit_char d Hd), IH. reflexivity.
Qed.

Lemma read_radix_zero_other (c : ascii) (rest : string) :
  c <> "x"%char -> c <> "X"%char ->
  read_radix (String "0" (String c rest)) = (10, String "0" (String c rest)).
Proof.
  intros Hx HX.
  destruct c as [[] [] [] [] [] [] [] []]; try reflexivity; congruence.
Qed.

Lemma read_radix_stop (ds : list Z) (c : ascii) (rest : string) :
  Forall is_digit ds -> ds <> [] -> c <> "x"%char -> c <> "X"%char ->
  read_radix (string_of_digits ds ++ String c rest)
  = (10, (string_of_digits ds ++ String c rest)%string).
Proof.
  intros Hds Hne Hx HX.
  destruct Hds as [| d1 ds H1 Hds]; [congruence |].
  apply digit_cases in H1.
  destruct H1 as [-> | H1].
  - destruct Hds as [| d2 ds H2 Hds].
    + exact (read_radix_zero_other c rest Hx HX).
    + apply digit_cases in H2.
      repeat (destruct H2 as [H2 | H2]; [subst; reflexivity |]). subst. reflexivity.
  - repeat (destruct H1 as [H1 | H1]; [subst; reflexivity |]). subst. reflexivity.
Qed.

(** parseInt reads the first run of digits and nothing else: white space
    before it and whatever follows it are ignored. *)
Lemma parseInt_digit_run (w : string) (ds : list Z) (c : ascii) (rest : string) :
  TrimString_start w = "" ->
  Forall is_digit ds -> ds <> [] -> ends_digits c ->
  parseInt (w ++ string_of_digits ds ++ String c rest) = parseInt (string_of_digits ds).
Proof.
  intros Hw Hds Hne (Hc & Hx & HX).
  rewrite (parseInt_digits ds Hds Hne).
  unfold parseInt. rewrite (TrimString_start_app w _ Hw).
  destruct ds as [| d ds]; [congruence |].
  pose proof (Forall_inv Hds) as Hd.
  change (string_of_digits (d :: ds) ++ String c rest)%string
    with (String (digit_char d) (string_of_digits ds ++ String c rest)).
  rewrite (TrimString_start_digit d _ Hd), (read_sign_digit d _ Hd).
  cbv beta iota.
  change (String (digit_char d) (string_of_digits ds ++ String c rest))
    with (string_of_digits (d :: ds) ++ String c rest)%string.
  rewrite (read_radix_stop _ c rest Hds Hne Hx HX).
  rewrite (digits_prefix_stop _ c rest Hds Hc).
  rewrite Z.mul_1_l. reflexivity.
Qed.

Lemma parseInt_leading_zero (ds : list Z) :
  Forall is_digit ds -> ds <> [] ->
  parseInt (String "0" (string_of_digits ds)) = parseInt (string_of_digits ds).
Proof.
  intros Hds Hne.
  change (String "0" (string_of_digits ds)) with (string_of_digits (0 :: ds)).
  rewrite parseInt_digits, parseInt_digits; try assumption; try discriminate.
  - reflexivity.
  - constructor; [unfold is_digit; lia | exact Hds].
Qed.

Lemma append_inj_l (p x y : string) : (p ++ x = p ++ y)%string -> x = y.
Proof.
  induction p as [| c p IH]; simpl; intros H; [exact H |].
  injection H as H. exact (IH H).
Qed.

(** Different numbers have different texts. *)
Lemma Number_toString_inj (a b : Z) :
  representable a = true -> Z.abs a < 10 ^ 21 ->
  representable b = true -> Z.abs b < 10 ^ 21 ->
  Number_toString (Num a) = Number_toString (Num b) -> a = b.
Proof.
  intros Ha Ha' Hb Hb' H.
  apply (f_equal parseInt) in H.
  rewrite (parseInt_toString a Ha Ha'), (parseInt_toString b Hb Hb') in H.
  congruence.
Qed.

End NumberTextMore.

Section IsbnTextProperties.

Variable API_BASE_URL : string.

(** X14. An isbn typed as the plain decimal numeral of a natural number
    below 2^53 is sent as exactly that number, and a record holding
    that number is shown, when opened for edit, with exactly that
    numeral: text to number to text is a round trip. *)
Theorem isbn_text_roundtrip (env : Env) (s : State) (d : BookFormData.t)
  (b : Book.t) (n : Z) :
  0 <= n < 2 ^ 53 ->
  BookFormData.isbn d = numeral n ->
  Book.isbn b = JS.Num n ->
  bookData d
  = [ ("book_name", JS.VString (BookFormData.book_name d));
      ("author_name", JS.VString (BookFormData.author_name d));
      ("isbn", JS.VNumber (JS.Num n)) ]
  /\ BookFormData.isbn (formData (final (dispatch API_BASE_URL env s (ClickEdit b))))
     = BookFormData.isbn d.
Proof.
  intros Hn Hd Hb. split.
  - unfold bookData. rewrite Hd. unfold numeral.
    rewrite (parseInt_decimal n ltac:(lia)), (number_of_Z_safe n ltac:(lia)).
    reflexivity.
  - simpl. rewrite Hb, Hd. exact (Number_toString_safe n Hn).
Qed.

(** X15. Only the first run of digits of the isbn text counts: white
    space before it and everything from the first other character on
    (a point, an exponent, a hyphen, letters) are dropped, so the
    request sent is the one the digits alone would give. *)
Theorem isbn_digit_run_is_sent (title author w rest : string) (ds : list Z)
  (c : ascii) (editingBook : option Book.t) :
  JS.TrimString_start w = "" ->
  Forall JS.is_digit ds -> ds <> [] -> ends_digits c ->
  submit_request API_BASE_URL
    (BookFormData.mk title author (w ++ JS.string_of_digits ds ++ String c rest))
    editingBook
  = submit_request API_BASE_URL
      (BookFormData.mk title author (JS.string_of_digits ds)) editingBook.
Proof.
  intros Hw Hds Hne Hc.
  unfold submit_request, bookData. simpl.
  rewrite (parseInt_digit_run w ds c rest Hw Hds Hne Hc). reflexivity.
Qed.

(** X16. Leading zeros of the isbn text are lost: a text of digits and
    the same text with a zero in front give the same request. *)
Theorem isbn_leading_zero_is_lost (title author : string) (ds : list Z)
  (editingBook : option Book.t) :
  Forall JS.is_digit ds -> ds <> [] ->
  submit_request API_BASE_URL
    (BookFormData.mk title author (String "0" (JS.string_of_digits ds))) editingBook
  = submit_request API_BASE_URL
      (BookFormData.mk title author (JS.string_of_digits ds)) editingBook.
Proof.
  intros Hds Hne.
  unfold submit_request, bookData. simpl.
  rewrite (parseInt_leading_zero ds Hds Hne). reflexivity.
Qed.

(** X17. Records with different ids are addressed by different URLs: for
    integer ids of magnitude below 10^21, the requests that delete or
    update two records with different ids never go to the same URL. *)
Theorem ids_address_records (a b : Z) (d1 d2 : BookFormData.t) (r1 r2 : Book.t) :
  JS.representable a = true -> Z.abs a < 10 ^ 21 ->
  JS.representable b = true -> Z.abs b < 10 ^ 21 ->
  Book.id r1 = JS.Num a -> Book.id r2 = JS.Num b ->
  a <> b ->
  url (delete_request API_BASE_URL (Book.id r1))
  <> url (delete_request API_BASE_URL (Book.id r2))
  /\ url (submit_request API_BASE_URL d1 (Some r1))
     <> url (submit_request API_BASE_URL d2 (Some r2)).
Proof.
  intros Ha Ha' Hb Hb' H1 H2 Hab.
  unfold delete_request, submit_request. simpl. rewrite H1, H2.
  split; intros H; apply Hab; apply append_inj_l in H;
    apply (append_inj_l "/books/") in H;
    exact (Number_toString_inj a b Ha Ha' Hb Hb' H).
Qed.

End IsbnTextProperties.

(** *** Outcomes of a mutation, continued *)

Section MoreOutcomes.

Variable API_BASE_URL : string.
Variable env : Env.

(** X18. After a mutation that succeeds and a reload that succeeds, the
    book list is the collection the server returned to the reload, which
    it answered having seen the mutation; the error message is empty
    and loading is over. *)
Theorem mutation_then_fresh_list (s : State) (m : mutation) (r : Response)
  (data : list Book.t) :
  attempted env s m = true ->
  let req := mutation_request API_BASE_URL s m in
  failed (fetch env [] req) = false ->
  fetch env [req] (books_request API_BASE_URL) = Resolved r ->
  ok r = true ->
  json r = inr data ->
  let s' := final (mutation_run API_BASE_URL env s m) in
  books s' = data /\ error s' = "" /\ loading s' = false.
Proof.
  intros Ha req Hok Hre Hr Hj s'.
  destruct (exec_mutation API_BASE_URL env s m Ha) as (_ & Hfin & _).
  fold req in Hfin. rewrite Hok, Hre in Hfin.
  unfold s'. rewrite Hfin.
  destruct m; unfold saved, deleted, after_load; rewrite Hr, Hj;
    repeat split; reflexivity.
Qed.

(** X19. The three handlers that talk to the server catch what is thrown
    in them: when fetch rejects, when the handler throws on a status
    outside 200-299, and when response.json() rejects, the loader, the
    submission and the deletion still end normally, the exception
    caught by their own catch block. *)
Theorem network_handlers_catch (s : State) :
  (forall sent, result (exec env (fetchBooks API_BASE_URL) s sent) = Normal tt)
  /\ result (submit API_BASE_URL env s) = Normal tt
  /\ (forall id, result (exec env (handleDelete API_BASE_URL id) s []) = Normal tt).
Proof.
  split; [| split].
  - intros sent. exact (proj1 (exec_fetchBooks API_BASE_URL env s sent)).
  - destruct (valid_draft (formData s)) eqn:Hv.
    + exact (proj1 (exec_submit_valid API_BASE_URL env s Hv)).
    + rewrite (exec_submit_invalid API_BASE_URL env s Hv). reflexivity.
  - intros id. destruct (confirm env confirm_message) eqn:Hc.
    + exact (proj1 (exec_delete_confirmed API_BASE_URL env s id Hc)).
    + rewrite (exec_delete_declined API_BASE_URL env s id Hc). reflexivity.
Qed.


End MoreOutcomes.

(** *** The properties above, on concrete inputs *)


Lemma writes_follow_answers_witness :
  trace (dispatch localhost (server_ok [dune]) creating_dune SubmitForm)
  = ([ EvAct PreventDefault; EvAct (SetLoading true);
       EvFetch (submit_request localhost dune_draft None)
         (Resolved {| status := 200; json := inr [dune] |});
       EvAct (SetLoading true) ]
     ++ EvFetch (books_request localhost)
          (Resolved {| status := 200; json := inr [dune] |})
     :: [ EvAct (SetBooks [dune]); EvAct (SetError ""); EvAct (SetLoading false);
          EvAct (SetFormData empty_draft); EvAct (SetEditingBook None);
          EvAct (SetIsFormOpen false); EvAct (SetError "");
          EvAct (SetLoading false) ])%list
  /\ forallb writes_nothing
       [ EvAct PreventDefault; EvAct (SetLoading true);
         EvFetch (submit_request localhost dune_draft None)
           (Resolved {| status := 200; json := inr [dune] |});
         EvAct (SetLoading true) ]
     = true.
Proof.
  split; [reflexivity |].
  exact (writes_follow_answers localhost (server_ok [dune]) creating_dune SubmitForm
           [ EvAct PreventDefault; EvAct (SetLoading true);
             EvFetch (submit_request localhost dune_draft None)
               (Resolved {| status := 200; json := inr [dune] |});
             EvAct (SetLoading true) ]
           [ EvAct (SetBooks [dune]); EvAct (SetError ""); EvAct (SetLoading false);
             EvAct (SetFormData empty_draft); EvAct (SetEditingBook None);
             EvAct (SetIsFormOpen false); EvAct (SetError "");
             EvAct (SetLoading false) ]
           (books_request localhost)
           (Resolved {| status := 200; json := inr [dune] |})
           eq_refl).
Defined.

Lemma loading_placeholder_witness :
  reachable localhost one_book_loaded
  /\ list_area localhost one_book_loaded
     = element "div" [className "grid grid-cols-1 md:grid-cols-2 lg:grid-cols-3 gap-6"]
         [card localhost dune].
Proof.
  assert (Hr : reachable localhost one_book_loaded).
  { exact (reachable_step localhost initial (server_ok [dune]) Mount
             (reachable_initial localhost) I). }
  split; [exact Hr |].
  exact (proj2 (loading_placeholder localhost (server_ok [dune]) one_book_loaded Mount) Hr).
Defined.

Lemma local_events_frame_witness :
  is_local ClickCancel = true
  /\ requests (trace (dispatch localhost server_down editing_dune ClickCancel)) = []
  /\ books (final (dispatch localhost server_down editing_dune ClickCancel)) = [dune]
  /\ error (final (dispatch localhost server_down editing_dune ClickCancel)) = "".
Proof.
  split; [reflexivity |].
  destruct (local_events_frame localhost server_down editing_dune ClickCancel eq_refl)
    as (_ & Hr & _ & _ & Hb & _ & He).
  repeat split; assumption.
Defined.

Lemma failures_are_logged_witness :
  attempted server_500 creating_dune SubmitDraft = true
  /\ logged (trace (mutation_run localhost server_500 creating_dune SubmitDraft))
     = [Error "Failed to save book"].
Proof.
  split; [reflexivity |].
  exact (proj2 (failures_are_logged localhost server_500 creating_dune)
           SubmitDraft eq_refl).
Defined.

Lemma saved_but_not_reloaded_witness :
  attempted server_write_only creating_dune SubmitDraft = true
  /\ failed (fetch server_write_only []
               (mutation_request localhost creating_dune SubmitDraft)) = false
  /\ load_cause (fetch server_write_only
                   [mutation_request localhost creating_dune SubmitDraft]
                   (books_request localhost))
     = Some (TypeError "Failed to fetch")
  /\ error (final (mutation_run localhost server_write_only creating_dune SubmitDraft))
     = ""
  /\ books (final (mutation_run localhost server_write_only creating_dune SubmitDraft))
     = [].
Proof.
  split; [reflexivity |]. split; [reflexivity |]. split; [reflexivity |].
  destruct (saved_but_not_reloaded localhost server_write_only creating_dune SubmitDraft
              (TypeError "Failed to fetch") eq_refl eq_refl eq_refl)
    as (He & Hb & _).
  split; assumption.
Defined.

Lemma edit_cancel_roundtrip_witness :
  reachable localhost one_book_loaded
  /\ isFormOpen one_book_loaded = false
  /\ final (dispatch localhost server_down
              (final (dispatch localhost server_down one_book_loaded (ClickEdit dune)))
              ClickCancel)
     = one_book_loaded.
Proof.
  assert (Hr : reachable localhost one_book_loaded).
  { exact (reachable_step localhost initial (server_ok [dune]) Mount
             (reachable_initial localhost) I). }
  split; [exact Hr |]. split; [reflexivity |].
  exact (edit_cancel_roundtrip localhost server_down server_down one_book_loaded dune
           Hr eq_refl).
Defined.

Lemma rendered_handlers_witness :
  enabled one_book_loaded (ClickEdit dune)
  /\ exists b, In b (bindings (render localhost one_book_loaded))
               /\ fires localhost one_book_loaded b (ClickEdit dune).
Proof.
  assert (He : enabled one_book_loaded (ClickEdit dune)) by (left; reflexivity).
  split; [exact He |].
  exact (proj1 (rendered_handlers localhost one_book_loaded) (ClickEdit dune)
           ltac:(discriminate) He).
Defined.

Lemma isbn_text_roundtrip_witness :
  0 <= 9780441013593 < 2 ^ 53
  /\ BookFormData.isbn dune_draft = numeral 9780441013593
  /\ Book.isbn dune = JS.Num 9780441013593
  /\ BookFormData.isbn
       (formData (final (dispatch localhost server_down initial (ClickEdit dune))))
     = "9780441013593".
Proof.
  assert (Hn : 0 <= 9780441013593 < 2 ^ 53) by (split; vm_compute; congruence).
  split; [exact Hn |]. split; [reflexivity |]. split; [reflexivity |].
  exact (proj2 (isbn_text_roundtrip localhost server_down initial dune_draft dune
                  9780441013593 Hn eq_refl eq_refl)).
Defined.

Lemma isbn_digit_run_is_sent_witness :
  JS.TrimString_start " " = ""
  /\ Forall JS.is_digit [9; 7; 8] /\ [9; 7; 8] <> [] /\ ends_digits "-"
  /\ submit_request localhost (BookFormData.mk "Dune" "Herbert" " 978-0441013593") None
     = submit_request localhost (BookFormData.mk "Dune" "Herbert" "978") None.
Proof.
  assert (Hd : Forall JS.is_digit [9; 7; 8]).
  { repeat constructor; unfold JS.is_digit; lia. }
  assert (Hne : [9; 7; 8] <> []) by discriminate.
  assert (Hc : ends_digits "-").
  { split; [reflexivity | split; discriminate]. }
  split; [reflexivity |]. split; [exact Hd |]. split; [exact Hne |].
  split; [exact Hc |].
  exact (isbn_digit_run_is_sent localhost "Dune" "Herbert" " " "0441013593"
           [9; 7; 8] "-" None eq_refl Hd Hne Hc).
Defined.

Lemma isbn_leading_zero_is_lost_witness :
  Forall JS.is_digit [4; 4; 1] /\ [4; 4; 1] <> []
  /\ submit_request localhost (BookFormData.mk "Dune" "Herbert" "0441") None
     = submit_request localhost (BookFormData.mk "Dune" "Herbert" "441") None.
Proof.
  assert (Hd : Forall JS.is_digit [4; 4; 1]).
  { repeat constructor; unfold JS.is_digit; lia. }
  assert (Hne : [4; 4; 1] <> []) by discriminate.
  split; [exact Hd |]. split; [exact Hne |].
  exact (isbn_leading_zero_is_lost localhost "Dune" "Herbert" [4; 4; 1] None Hd Hne).
Defined.

Lemma ids_address_records_witness :
  JS.representable 3 = true /\ Z.abs 3 < 10 ^ 21
  /\ JS.representable 4 = true /\ Z.abs 4 < 10 ^ 21
  /\ Book.id dune = JS.Num 3
  /\ Book.id (Book.mk (JS.Num 4) "Emma" "Austen" (JS.Num 9780141439587)) = JS.Num 4
  /\ 3 <> 4
  /\ url (delete_request localhost (JS.Num 3))
     <> url (delete_request localhost (JS.Num 4)).
Proof.
  assert (H3 : Z.abs 3 < 10 ^ 21) by (vm_compute; reflexivity).
  assert (H4 : Z.abs 4 < 10 ^ 21) by (vm_compute; reflexivity).
  assert (Hne : 3 <> 4) by discriminate.
  split; [reflexivity |]. split; [exact H3 |].
  split; [reflexivity |]. split; [exact H4 |].
  split; [reflexivity |]. split; [reflexivity |]. split; [exact Hne |].
  exact (proj1 (ids_address_records localhost 3 4 dune_draft dune_draft dune
                  (Book.mk (JS.Num 4) "Emma" "Austen" (JS.Num 9780141439587))
                  eq_refl H3 eq_refl H4 eq_refl eq_refl Hne)).
Defined.

Lemma mutation_then_fresh_list_witness :
  attempted (server_ok [dune]) creating_dune SubmitDraft = true
  /\ failed (fetch (server_ok [dune]) []
               (mutation_request localhost creating_dune SubmitDraft)) = false
  /\ books (final (mutation_run localhost (server_ok [dune]) creating_dune SubmitDraft))
     = [dune].
Proof.
  split; [reflexivity |]. split; [reflexivity |].
  exact (proj1 (mutation_then_fresh_list localhost (server_ok [dune]) creating_dune
                  SubmitDraft {| status := 200; json := inr [dune] |} [dune]
                  eq_refl eq_refl eq_refl eq_refl eq_refl)).
Defined.

